(** * Stock comparison tool: per-year metrics and range comparison

    A shallow embedding of [PBusch_PersonalProject.py]: the guarded
    arithmetic helpers [safe_divide] and [get_scalar], the per-year metric
    derivation [get_annual_metrics] and the range loop
    [compare_stocks_over_range], followed by the properties of the
    specification that concern them.

    Modelling choices.
    - Inside [get_annual_metrics] a Python number is a binary64 float
      ([PrimFloat.float]): statement cells and closing prices are float64
      values and the statistics of [info] are floats; an integer that meets
      a float in a division (a market capitalisation, the literal [100])
      stands as the float it converts to.  [None] is [None] of
      [option float].  [safe_divide] as a function of its own, on floats
      and on Python's unbounded [int], is in [PyNum].
    - What [DataFrame.loc] hands back is a [cell]: a pandas Series or a
      bare scalar.
    - A dict with string keys is a [gmap string _].
    - The market-data provider and pandas are external: a statement is
      observed through the two operations the program uses on it
      ([label in df.columns] and [df.loc[row, label]]).
    - Exceptions are explicit ([result]); the Streamlit calls [st.write]
      and [st.warning] are collected in a log ([ui]). *)

From Stdlib Require Import ZArith String PrimFloat SpecFloat FloatOps DecimalString.
From stdpp Require Import gmap strings list fin_maps.

Local Open Scope Z_scope.

(** ** Python values *)

(** A number or [None]. *)
Abbreviation scalar := (option float).

(** The value of [df.loc[row, label]]. *)
Inductive cell : Type :=
  | PSeries (values : list float)
  | PScalar (v : scalar).

(** A value stored in a row of the comparison table. *)
Inductive pyobj : Type :=
  | PInt (n : Z)
  | PNum (v : scalar).

(** ** Exceptions *)

Inductive exn : Type :=
  | KeyError (key : string)
  | TypeError
  | ZeroDivisionError
  | OverflowError
  | IndexError.

Inductive result (A : Type) : Type :=
  | Ok (a : A)
  | Raise (e : exn).
Arguments Ok {A} a.
Arguments Raise {A} e.

Definition rbind {A B} (r : result A) (k : A → result B) : result B :=
  match r with
  | Ok a => k a
  | Raise e => Raise e
  end.

Notation "x ←! r ; k" := (rbind r (λ x, k))
  (at level 20, r at level 100, k at level 200, right associativity,
   format "x  ←!  r ;  '/' k").

(** [try: body except ZeroDivisionError: handler] *)
Definition except_ZeroDivisionError {A} (body : result A) (handler : result A)
  : result A :=
  match body with
  | Raise ZeroDivisionError => handler
  | other => other
  end.

(** ** Streamlit output *)

Inductive ui_event : Type :=
  (** [st.write(f"Fetching metrics for {ticker1} and {ticker2} in {year}...")] *)
  | Fetching (ticker1 ticker2 : string) (year : Z)
  (** [st.warning(f"No data found for {ticker} in {year}.")] *)
  | NoDataFound (ticker : string) (year : Z)
  (** [st.warning(f"Error calculating metrics for {year}: {e}")] *)
  | ErrorCalculating (year : Z) (e : exn)
  (** [st.warning(f"No data available for {ticker1} and {ticker2} ...")] *)
  | NoDataAvailable (ticker1 ticker2 : string).

Definition is_warning (ev : ui_event) : bool :=
  match ev with
  | Fetching _ _ _ => false
  | _ => true
  end.

(** A computation that returns a value and the events it displayed. *)
Definition ui (A : Type) : Type := A * list ui_event.

Definition ui_ret {A} (a : A) : ui A := (a, []).

Definition ui_bind {A B} (m : ui A) (k : A → ui B) : ui B :=
  let '(a, log1) := m in
  let '(b, log2) := k a in
  (b, log1 ++ log2).

Definition st_write (ev : ui_event) : ui unit := (tt, [ev]).
Definition st_warning (ev : ui_event) : ui unit := (tt, [ev]).

Notation "x ←? m ; k" := (ui_bind m (λ x, k))
  (at level 20, m at level 100, k at level 200, right associativity,
   format "x  ←?  m ;  '/' k").
Notation "m ;;? k" := (ui_bind m (λ _, k))
  (at level 100, k at level 200, right associativity).

(** ** Python operators on scalars *)

(** [bool(x)]: [None] and zero (of either sign) are false, NaN is true. *)
Definition truthy (x : scalar) : bool :=
  match x with
  | None => false
  | Some f => negb (f =? 0)%float
  end.

(** [x is not None] *)
Definition is_not_None (x : scalar) : bool :=
  match x with
  | None => false
  | Some _ => true
  end.

(** [x / y] on floats and [None] ([PyNum.py_truediv] has the [int]
    operands as well) *)
Definition py_truediv (x y : scalar) : result scalar :=
  match x, y with
  | Some a, Some b =>
      if (b =? 0)%float then Raise ZeroDivisionError else Ok (Some (a / b)%float)
  | _, _ => Raise TypeError
  end.

(** [x - y] *)
Definition py_sub (x y : scalar) : result scalar :=
  match x, y with
  | Some a, Some b => Ok (Some (a - b)%float)
  | _, _ => Raise TypeError
  end.

(** ** pandas Series *)

(** [Series.sum()] of a float64 Series.  pandas skips the missing values
    (NaN) by putting zero in their place and calls numpy's sum, which adds
    pairwise: fewer than 8 elements are added from left to right; 8 to 128
    elements are added into eight running sums, one per position in a group
    of eight, which are then added up two by two, and the elements after the
    last full group are added one by one; more than 128 elements are split
    in two halves (the first a multiple of eight) that are summed apart.
    The result of that is added to 0.0, the identity from which numpy
    starts a sum, so that the sum of no element is 0.0. *)

(** The value pandas puts in place of a missing one. *)
Definition fill_nan (x : float) : float := if is_nan x then 0%float else x.

(** [res += a[i]] for the elements of [values], from left to right. *)
Definition add_all (res : float) (values : list float) : float :=
  fold_left PrimFloat.add values res.

(** [r[j] += a[i + j]] for [j] from 0 to 7, for each of the next [groups]
    groups of eight elements. *)
Fixpoint add_groups (r : list float) (groups : nat) (values : list float)
  : list float :=
  match groups with
  | O => r
  | S groups =>
      add_groups (zip_with PrimFloat.add r (take 8 values)) groups
        (drop 8 values)
  end.

(** The branch for 8 to 128 elements. *)
Definition unrolled_sum (values : list float) : float :=
  let n := length values in
  let r := add_groups (take 8 values) (n / 8 - 1)%nat (drop 8 values) in
  match r with
  | [r0; r1; r2; r3; r4; r5; r6; r7] =>
      add_all (((r0 + r1) + (r2 + r3)) + ((r4 + r5) + (r6 + r7)))%float
        (drop (n - n mod 8)%nat values)
  | _ => nan
  end.

(** numpy's pairwise sum; its running sum of fewer than 8 elements starts
    from -0.0, the neutral element of the addition.  [fuel] bounds the depth
    of the splitting; the number of elements is always enough
    ([pairwise_sum_fuel]). *)
Fixpoint pairwise_sum (fuel : nat) (values : list float) : float :=
  let n := length values in
  if (n <? 8)%nat then add_all (-0)%float values
  else if (n <=? 128)%nat then unrolled_sum values
  else
    match fuel with
    | O => nan
    | S fuel =>
        let n2 := (n / 2 - (n / 2) mod 8)%nat in
        (pairwise_sum fuel (take n2 values)
         + pairwise_sum fuel (drop n2 values))%float
    end.

Definition series_sum (values : list float) : float :=
  (0 + pairwise_sum (length values) (fill_nan <$> values))%float.

(** ** The helpers *)

Definition safe_divide (numerator denominator : scalar) : result scalar :=
  except_ZeroDivisionError
    (if is_not_None numerator && truthy denominator
     then py_truediv numerator denominator
     else Ok None)
    (Ok None).

Definition get_scalar (value : cell) : scalar :=
  match value with
  | PSeries values =>
      (* value.item() if len(value) == 1 else value.sum() *)
      Some (match values with
            | [x] => x
            | _ => series_sum values
            end)
  | PScalar v => v
  end.

(** ** Division on Python's numbers

    [safe_divide] above is the function on the operands that
    [get_annual_metrics] gives it: [None] and floats.  As a function of its
    own it also takes Python's [int], whose values are unbounded; the
    operators on all three are in [PyNum]. *)

Module PyNum.

(** A Python number: an [int] or a [float]. *)
Inductive number : Type :=
  | PyInt (n : Z)
  | PyFloat (f : float).

(** [float(n)]: the nearest float, ties to even; an [int] that rounds
    beyond the largest float raises. *)
Definition float_of_int (n : Z) : result float :=
  let f := SF2Prim (binary_normalize prec emax n 0 false) in
  if is_infinity f then Raise OverflowError else Ok f.

(** [a / b] on two [int]: the quotient rounded once to the nearest float,
    ties to even.  The quotient is taken with enough binary digits, and a
    last digit records a non-zero remainder. *)
Definition int_true_divide (a b : Z) : result float :=
  if (b =? 0)%Z then Raise ZeroDivisionError
  else if (a =? 0)%Z then Ok (if (b <? 0)%Z then (-0)%float else 0%float)
  else
    let shift := Z.max 0 (Z.log2 (Z.abs b) - Z.log2 (Z.abs a) + 64) in
    let q := (Z.abs a * 2 ^ shift) / Z.abs b in
    let r := (Z.abs a * 2 ^ shift) mod Z.abs b in
    let m := 2 * q + (if (r =? 0)%Z then 0 else 1) in
    let signed := if xorb (a <? 0)%Z (b <? 0)%Z then - m else m in
    let f := SF2Prim (binary_normalize prec emax signed (- shift - 1) false) in
    if is_infinity f then Raise OverflowError else Ok f.

(** [a / b] on two floats. *)
Definition float_true_divide (a b : float) : result float :=
  if (b =? 0)%float then Raise ZeroDivisionError else Ok (a / b)%float.

(** [bool(x)] *)
Definition truthy (x : option number) : bool :=
  match x with
  | None => false
  | Some (PyInt n) => negb (n =? 0)%Z
  | Some (PyFloat f) => negb (f =? 0)%float
  end.

(** [x is not None] *)
Definition is_not_None (x : option number) : bool :=
  match x with
  | None => false
  | Some _ => true
  end.

(** [x / y]: an [int] that meets a float is converted first. *)
Definition py_truediv (x y : option number) : result (option number) :=
  match x, y with
  | Some (PyInt a), Some (PyInt b) =>
      q ←! int_true_divide a b; Ok (Some (PyFloat q))
  | Some (PyInt a), Some (PyFloat b) =>
      a' ←! float_of_int a;
      q ←! float_true_divide a' b; Ok (Some (PyFloat q))
  | Some (PyFloat a), Some (PyInt b) =>
      b' ←! float_of_int b;
      q ←! float_true_divide a b'; Ok (Some (PyFloat q))
  | Some (PyFloat a), Some (PyFloat b) =>
      q ←! float_true_divide a b; Ok (Some (PyFloat q))
  | _, _ => Raise TypeError
  end.

Definition safe_divide (numerator denominator : option number)
  : result (option number) :=
  except_ZeroDivisionError
    (if is_not_None numerator && truthy denominator
     then py_truediv numerator denominator
     else Ok None)
    (Ok None).

(** A float operand of the function above as a Python number. *)
Definition of_scalar (x : scalar) : option number := PyFloat <$> x.

End PyNum.

(** ** The data provider *)

(** A financial statement as the program observes it. *)
Record DataFrame : Type := {
  has_column : string → bool;             (* label in df.columns *)
  loc : string → string → result cell     (* df.loc[row, label] *)
}.

(** [yf.Ticker(ticker)]: [history] gives the closing prices of the rows of
    [stock.history(start=..., end=...)]. *)
Record Ticker : Type := {
  history : string → string → list float;
  financials : DataFrame;
  balance_sheet : DataFrame;
  cashflow : DataFrame;
  info : gmap string scalar
}.

Definition Provider : Type := string → Ticker.

(** [f"{year}"] *)
Definition fstr (year : Z) : string := NilZero.string_of_int (Z.to_int year).

(** [d.get(key, None)] *)
Definition dict_get (d : gmap string scalar) (key : string) : scalar :=
  default None (d !! key).

(** [d[key]] *)
Definition dict_getitem (d : gmap string scalar) (key : string) : result scalar :=
  match d !! key with
  | Some v => Ok v
  | None => Raise (KeyError key)
  end.

(** [series.iloc[-1]] *)
Definition iloc_last (values : list float) : result scalar :=
  match last values with
  | Some x => Ok (Some x)
  | None => Raise IndexError
  end.

(** [get_scalar(df.loc[row, label]) if label in df.columns else None] *)
Definition fetch (df : DataFrame) (row label : string) : result scalar :=
  if has_column df label
  then value ←! loc df row label; Ok (get_scalar value)
  else Ok None.

(** ** Per-year metrics *)

(** The body of the [try] block of [get_annual_metrics]: [stock_data] is
    the non-empty price history of the year. *)
Definition compute_metrics (stock : Ticker) (stock_data : list float) (year : Z)
  : result (gmap string scalar) :=
  let financials := financials stock in
  let balance_sheet := balance_sheet stock in
  let info := info stock in
  let metrics : gmap string scalar := ∅ in
  net_income ←! fetch financials "Net Income" (fstr year);
  stockholders_equity ←!
    fetch balance_sheet "Total Equity Gross Minority Interest" (fstr year);
  total_assets ←! fetch balance_sheet "Total Assets" (fstr year);
  gross_profit ←! fetch financials "Gross Profit" (fstr year);
  revenue ←! fetch financials "Total Revenue" (fstr year);
  total_liabilities ←!
    fetch balance_sheet "Total Liabilities Net Minority Interest" (fstr year);
  ebitda ←! fetch financials "EBITDA" (fstr year);
  let ev_ebitda := dict_get info "enterpriseToEbitda" in
  let peg_ratio := dict_get info "pegRatio" in
  roe ←! safe_divide net_income stockholders_equity;
  let metrics := <["ROE" := roe]> metrics in
  roa ←! safe_divide net_income total_assets;
  let metrics := <["ROA" := roa]> metrics in
  margin ←! safe_divide gross_profit revenue;
  let metrics := <["Gross Profit Margin" := margin]> metrics in
  debt_to_equity ←! safe_divide total_liabilities stockholders_equity;
  let metrics := <["Debt-to-Equity" := debt_to_equity]> metrics in
  end_of_year_price ←! iloc_last stock_data;
  let eps := dict_get info "trailingEps" in
  pe_ratio ←! safe_divide end_of_year_price eps;
  let metrics := <["P/E Ratio" := pe_ratio]> metrics in
  let metrics := <["EV/EBITDA" := ev_ebitda]> metrics in
  let market_cap := dict_get info "marketCap" in
  p_ebitda ←! safe_divide market_cap ebitda;
  let metrics := <["P/EBITDA" := p_ebitda]> metrics in
  earnings_yield ←! safe_divide eps end_of_year_price;
  let metrics := <["Earnings Yield" := earnings_yield]> metrics in
  previous_revenue ←! fetch financials "Total Revenue" (fstr (year - 1));
  difference ←! py_sub revenue previous_revenue;
  revenue_growth ←! safe_divide difference previous_revenue;
  let metrics := <["Revenue Growth" := revenue_growth]> metrics in
  match peg_ratio with
  | None =>
      growth ←! dict_getitem metrics "Revenue Growth";
      earnings_growth_rate ←! safe_divide growth (Some 100%float);
      pe ←! dict_getitem metrics "P/E Ratio";
      peg ←! safe_divide pe earnings_growth_rate;
      Ok (<["PEG Ratio" := peg]> metrics)
  | Some _ => Ok (<["PEG Ratio" := peg_ratio]> metrics)
  end.

Definition get_annual_metrics (yf : Provider) (ticker : string) (year : Z)
  : ui (option (gmap string scalar)) :=
  let stock := yf ticker in
  let start_date := fstr year +:+ "-01-01" in
  let end_date := fstr year +:+ "-12-31" in
  let stock_data := history stock start_date end_date in
  match stock_data with
  | [] => st_warning (NoDataFound ticker year) ;;? ui_ret None
  | _ =>
      match compute_metrics stock stock_data year with
      | Ok metrics => ui_ret (Some metrics)
      | Raise e => st_warning (ErrorCalculating year e) ;;? ui_ret None
      end
  end.

(** ** Comparison over a range of years *)

(** [range(start, stop)] *)
Definition range (start stop : Z) : list Z := seqZ start (stop - start).

(** [bool(d)] for a dict: the empty dict is false. *)
Definition dict_truthy {A} (d : gmap string A) : bool := negb (size d =? 0)%nat.

(** [f"{ticker}_{key}"] *)
Definition prefix_key (ticker key : string) : string := ticker +:+ "_" +:+ key.

(** [{f"{ticker}_{key}": value for key, value in metrics.items()}] *)
Definition prefixed (ticker : string) (metrics : gmap string scalar)
  : gmap string pyobj :=
  kmap (prefix_key ticker) (PNum <$> metrics).

(** [{"Year": year, **d1, **d2}]: later entries overwrite earlier ones. *)
Definition combine (year : Z) (d1 d2 : gmap string pyobj) : gmap string pyobj :=
  d2 ∪ (d1 ∪ {["Year" := PInt year]}).

(** The loop body of [compare_stocks_over_range], run over the years of the
    range with the rows accumulated so far. *)
Fixpoint compare_loop (yf : Provider) (ticker1 ticker2 : string)
    (years : list Z) (yearly_data : list (gmap string pyobj))
  : ui (list (gmap string pyobj)) :=
  match years with
  | [] => ui_ret yearly_data
  | year :: years =>
      st_write (Fetching ticker1 ticker2 year) ;;?
      metrics1 ←? get_annual_metrics yf ticker1 year;
      metrics2 ←? get_annual_metrics yf ticker2 year;
      (* if metrics1 and metrics2: [None] is false, a dict is tested *)
      match metrics1, metrics2 with
      | Some d1, Some d2 =>
          if dict_truthy d1 && dict_truthy d2
          then
            let combined_data :=
              combine year (prefixed ticker1 d1) (prefixed ticker2 d2) in
            compare_loop yf ticker1 ticker2 years (yearly_data ++ [combined_data])
          else compare_loop yf ticker1 ticker2 years yearly_data
      | _, _ => compare_loop yf ticker1 ticker2 years yearly_data
      end
  end.

(** The table is the list of its rows ([pd.DataFrame(yearly_data)]). *)
Definition compare_stocks_over_range (yf : Provider) (ticker1 ticker2 : string)
    (start_year end_year : Z) : ui (option (list (gmap string pyobj))) :=
  yearly_data ←? compare_loop yf ticker1 ticker2
                   (range start_year (end_year + 1)) [];
  match yearly_data with
  | [] => st_warning (NoDataAvailable ticker1 ticker2) ;;? ui_ret None
  | _ => ui_ret (Some yearly_data)
  end.

(** ** Sample data

    A table-backed statement and a few tickers, used to run the program on
    concrete inputs. *)

Fixpoint assoc {A} (key : string) (l : list (string * A)) : option A :=
  match l with
  | [] => None
  | (k, v) :: l => if String.eqb key k then Some v else assoc key l
  end.

Fixpoint index_of (label : string) (columns : list string) : option nat :=
  match columns with
  | [] => None
  | c :: columns =>
      if String.eqb label c then Some 0%nat else S <$> index_of label columns
  end.

(** A statement with unique labels: every cell is a bare float. *)
Definition frame (columns : list string) (rows : list (string * list float))
  : DataFrame :=
  {| has_column label := bool_decide (is_Some (index_of label columns));
     loc row label :=
       match assoc row rows, index_of label columns with
       | Some values, Some i =>
           match values !! i with
           | Some x => Ok (PScalar (Some x))
           | None => Raise (KeyError label)
           end
       | None, _ => Raise (KeyError row)
       | _, None => Raise (KeyError label)
       end |}.

Definition income_rows : list (string * list float) :=
  [("Net Income", [30; 24; 20; 10]%float);
   ("Gross Profit", [80; 70; 60; 50]%float);
   ("Total Revenue", [200; 160; 125; 100]%float);
   ("EBITDA", [50; 40; 32; 25]%float)].

Definition balance_rows : list (string * list float) :=
  [("Total Equity Gross Minority Interest", [120; 100; 80; 64]%float);
   ("Total Assets", [480; 400; 320; 256]%float);
   ("Total Liabilities Net Minority Interest", [360; 300; 240; 192]%float)].

Definition years4 : list string := ["2023"; "2022"; "2021"; "2020"].

Definition sample_info : gmap string scalar :=
  <["trailingEps" := Some 4%float]>
  (<["marketCap" := Some 1000%float]>
  (<["enterpriseToEbitda" := Some 12.5%float]> ∅)).

(** Complete data for 2021 to 2023; no PEG ratio in [info]. *)
Definition full_ticker : Ticker :=
  {| history _ _ := [90; 95; 100]%float;
     financials := frame years4 income_rows;
     balance_sheet := frame years4 balance_rows;
     cashflow := frame years4 [];
     info := sample_info |}.

(** As [full_ticker], with a PEG ratio supplied and no prices in 2022. *)
Definition gap_ticker : Ticker :=
  {| history start _ :=
       if String.eqb start "2022-01-01" then [] else [40; 50]%float;
     financials := frame years4 income_rows;
     balance_sheet := frame years4 balance_rows;
     cashflow := frame years4 [];
     info := <["pegRatio" := Some 1.5%float]> sample_info |}.

(** The balance sheet has no column for 2022. *)
Definition no_balance_2022 : Ticker :=
  {| history _ _ := [90; 95; 100]%float;
     financials := frame years4 income_rows;
     balance_sheet :=
       frame ["2023"; "2021"; "2020"]
             [("Total Equity Gross Minority Interest", [120; 80; 64]%float);
              ("Total Assets", [480; 320; 256]%float);
              ("Total Liabilities Net Minority Interest", [360; 240; 192]%float)];
     cashflow := frame years4 [];
     info := sample_info |}.

(** The income statement starts in 2022: no column for 2021. *)
Definition no_prior_year : Ticker :=
  {| history _ _ := [90; 95; 100]%float;
     financials :=
       frame ["2023"; "2022"]
             [("Net Income", [30; 24]%float);
              ("Gross Profit", [80; 70]%float);
              ("Total Revenue", [200; 160]%float);
              ("EBITDA", [50; 40]%float)];
     balance_sheet := frame years4 balance_rows;
     cashflow := frame years4 [];
     info := sample_info |}.

(** The provider reports no EBITDA for 2022 (a NaN cell). *)
Definition nan_ebitda : Ticker :=
  {| history _ _ := [90; 95; 100]%float;
     financials :=
       frame years4
             [("Net Income", [30; 24; 20; 10]%float);
              ("Gross Profit", [80; 70; 60; 50]%float);
              ("Total Revenue", [200; 160; 125; 100]%float);
              ("EBITDA", [50; nan; 32; 25]%float)];
     balance_sheet := frame years4 balance_rows;
     cashflow := frame years4 [];
     info := sample_info |}.

(** Finite figures whose quotient overflows. *)
Definition huge_ticker : Ticker :=
  {| history _ _ := [90; 95; 100]%float;
     financials :=
       frame years4
             [("Net Income", [0x1p1023; 0x1p1023; 20; 10]%float);
              ("Gross Profit", [80; 70; 60; 50]%float);
              ("Total Revenue", [200; 160; 125; 100]%float);
              ("EBITDA", [50; 40; 32; 25]%float)];
     balance_sheet :=
       frame years4
             [("Total Equity Gross Minority Interest", [120; 100; 80; 64]%float);
              ("Total Assets", [0x1p-1000; 0x1p-1000; 320; 256]%float);
              ("Total Liabilities Net Minority Interest",
               [360; 300; 240; 192]%float)];
     cashflow := frame years4 [];
     info := sample_info |}.

Definition sample_provider : Provider :=
  λ ticker,
    if String.eqb ticker "GAP" then gap_ticker
    else if String.eqb ticker "NOBS" then no_balance_2022
    else if String.eqb ticker "NEW" then no_prior_year
    else if String.eqb ticker "NANE" then nan_ebitda
    else if String.eqb ticker "HUGE" then huge_ticker
    else full_ticker.

(** Two dicts with the ten metric names, as two computations for one
    ticker would return them if the provider's data changed in between. *)
Definition first_metrics : gmap string scalar :=
  list_to_map ((λ key, (key, Some 1%float)) <$>
    ["ROE"; "ROA"; "Gross Profit Margin"; "Debt-to-Equity"; "P/E Ratio";
     "EV/EBITDA"; "P/EBITDA"; "Earnings Yield"; "Revenue Growth"; "PEG Ratio"]).

Definition second_metrics : gmap string scalar :=
  list_to_map ((λ key, (key, Some 2%float)) <$>
    ["ROE"; "ROA"; "Gross Profit Margin"; "Debt-to-Equity"; "P/E Ratio";
     "EV/EBITDA"; "P/EBITDA"; "Earnings Yield"; "Revenue Growth"; "PEG Ratio"]).

(** * Specification-level definitions *)

(** ** Guarded division *)

(** The quotient as the specification describes it: unavailable when an
    operand is unavailable or the denominator is zero. *)
Definition ratio (numerator denominator : scalar) : scalar :=
  match numerator, denominator with
  | Some a, Some b => if (b =? 0)%float then None else Some (a / b)%float
  | _, _ => None
  end.


(** ** The metrics dict *)

(** The ten metric names. *)
Definition metric_names : list string :=
  ["ROE"; "ROA"; "Gross Profit Margin"; "Debt-to-Equity"; "P/E Ratio";
   "EV/EBITDA"; "P/EBITDA"; "Earnings Yield"; "Revenue Growth"; "PEG Ratio"].

(** The dict that [compute_metrics] builds once every line item has been
    read: [difference] is [revenue - previous_revenue]. *)
Definition metrics_dict (info : gmap string scalar)
    (net_income stockholders_equity total_assets gross_profit revenue
     total_liabilities ebitda end_of_year_price previous_revenue difference
     : scalar) : gmap string scalar :=
  let eps := dict_get info "trailingEps" in
  let pe_ratio := ratio end_of_year_price eps in
  let revenue_growth := ratio difference previous_revenue in
  <["PEG Ratio" :=
      match dict_get info "pegRatio" with
      | None => ratio pe_ratio (ratio revenue_growth (Some 100%float))
      | Some peg => Some peg
      end]>
  (<["Revenue Growth" := revenue_growth]>
  (<["Earnings Yield" := ratio eps end_of_year_price]>
  (<["P/EBITDA" := ratio (dict_get info "marketCap") ebitda]>
  (<["EV/EBITDA" := dict_get info "enterpriseToEbitda"]>
  (<["P/E Ratio" := pe_ratio]>
  (<["Debt-to-Equity" := ratio total_liabilities stockholders_equity]>
  (<["Gross Profit Margin" := ratio gross_profit revenue]>
  (<["ROA" := ratio net_income total_assets]>
  (<["ROE" := ratio net_income stockholders_equity]> ∅))))))))).

(** The line items read by [compute_metrics], in the order of the source. *)
Definition read_items (stock : Ticker) (stock_data : list float) (year : Z)
  : result (gmap string scalar) :=
  net_income ←! fetch (financials stock) "Net Income" (fstr year);
  stockholders_equity ←!
    fetch (balance_sheet stock) "Total Equity Gross Minority Interest"
          (fstr year);
  total_assets ←! fetch (balance_sheet stock) "Total Assets" (fstr year);
  gross_profit ←! fetch (financials stock) "Gross Profit" (fstr year);
  revenue ←! fetch (financials stock) "Total Revenue" (fstr year);
  total_liabilities ←!
    fetch (balance_sheet stock) "Total Liabilities Net Minority Interest"
          (fstr year);
  ebitda ←! fetch (financials stock) "EBITDA" (fstr year);
  end_of_year_price ←! iloc_last stock_data;
  previous_revenue ←!
    fetch (financials stock) "Total Revenue" (fstr (year - 1));
  difference ←! py_sub revenue previous_revenue;
  Ok (metrics_dict (info stock) net_income stockholders_equity total_assets
        gross_profit revenue total_liabilities ebitda end_of_year_price
        previous_revenue difference).



(** What a successful run of [compute_metrics] has read. *)
Inductive items_read (stock : Ticker) (stock_data : list float) (year : Z)
    (metrics : gmap string scalar) : Prop :=
  | ItemsRead
      (net_income stockholders_equity total_assets gross_profit : scalar)
      (revenue : float) (total_liabilities ebitda : scalar)
      (end_of_year_price previous_revenue : float)
      (read_net_income :
         fetch (financials stock) "Net Income" (fstr year) = Ok net_income)
      (read_stockholders_equity :
         fetch (balance_sheet stock) "Total Equity Gross Minority Interest"
               (fstr year) = Ok stockholders_equity)
      (read_total_assets :
         fetch (balance_sheet stock) "Total Assets" (fstr year)
         = Ok total_assets)
      (read_gross_profit :
         fetch (financials stock) "Gross Profit" (fstr year) = Ok gross_profit)
      (read_revenue :
         fetch (financials stock) "Total Revenue" (fstr year)
         = Ok (Some revenue))
      (read_total_liabilities :
         fetch (balance_sheet stock) "Total Liabilities Net Minority Interest"
               (fstr year) = Ok total_liabilities)
      (read_ebitda :
         fetch (financials stock) "EBITDA" (fstr year) = Ok ebitda)
      (read_price : last stock_data = Some end_of_year_price)
      (read_previous_revenue :
         fetch (financials stock) "Total Revenue" (fstr (year - 1))
         = Ok (Some previous_revenue))
      (metrics_built :
         metrics =
         metrics_dict (info stock) net_income stockholders_equity total_assets
           gross_profit (Some revenue) total_liabilities ebitda
           (Some end_of_year_price) (Some previous_revenue)
           (Some (revenue - previous_revenue)%float)).

(** ** Observations of a run *)

(** [get_annual_metrics] returned a dict. *)
Definition available (yf : Provider) (ticker : string) (year : Z) : bool :=
  match fst (get_annual_metrics yf ticker year) with
  | Some _ => true
  | None => false
  end.

(** The entry [metrics[key]] of the dict that [get_annual_metrics] returned:
    [None] when there is no dict or no such key, [Some None] when the
    metric is [None]. *)
Definition metric (yf : Provider) (ticker : string) (year : Z) (key : string)
  : option scalar :=
  match fst (get_annual_metrics yf ticker year) with
  | Some metrics => metrics !! key
  | None => None
  end.

(** ** Rows of the comparison table *)

(** The row of a year: present when both computations return a dict. *)
Definition comparison_row (yf : Provider) (ticker1 ticker2 : string) (year : Z)
  : option (gmap string pyobj) :=
  match fst (get_annual_metrics yf ticker1 year),
        fst (get_annual_metrics yf ticker2 year) with
  | Some d1, Some d2 =>
      Some (combine year (prefixed ticker1 d1) (prefixed ticker2 d2))
  | _, _ => None
  end.

(** Both tickers have metrics for the year. *)
Definition both_available (yf : Provider) (ticker1 ticker2 : string) (year : Z)
  : bool :=
  available yf ticker1 year && available yf ticker2 year.

(** The ["Year"] entries of the rows of a table. *)
Definition table_years (rows : list (gmap string pyobj)) : list (option pyobj) :=
  (λ row, row !! "Year") <$> rows.

(** ** The chart and the page *)

(** A line of the chart: [ax.plot(stock.index, stock['Close'], label=...,
    linewidth=2)]; the abscissas are the dates of the same price history. *)
Record line2d : Type := {
  ydata : list float;
  label : string;
  linewidth : Z
}.

(** The figure handed to [st.pyplot]. *)
Record figure : Type := {
  fig_lines : list line2d;
  fig_title : string;
  fig_xlabel : string;
  fig_ylabel : string;
  fig_legend : bool;
  fig_grid : bool
}.

(** What the page displays: the messages of the computations and the
    elements of the page itself. *)
Inductive page_event : Type :=
  | Message (ev : ui_event)
  | Title (text : string)
  | Caption (text : string)
  | Subheader (text : string)
  | Dataframe (table : list (gmap string pyobj))
  | Pyplot (fig : figure).

Definition plot_stock_prices (yf : Provider) (ticker1 ticker2 : string)
    (start_year end_year : Z) : list page_event :=
  let start_date := fstr start_year +:+ "-01-01" in
  let end_date := fstr end_year +:+ "-12-31" in
  let stock1 := history (yf ticker1) start_date end_date in
  let stock2 := history (yf ticker2) start_date end_date in
  let heading :=
    "Stock Prices: " +:+ ticker1 +:+ " vs " +:+ ticker2 +:+ " ("
    +:+ fstr start_year +:+ "-" +:+ fstr end_year +:+ ")" in
  [Caption heading;
   Pyplot {| fig_lines :=
               [{| ydata := stock1; label := ticker1; linewidth := 2 |};
                {| ydata := stock2; label := ticker2; linewidth := 2 |}];
             fig_title := heading;
             fig_xlabel := "Date";
             fig_ylabel := "Stock Price";
             fig_legend := true;
             fig_grid := true |}].

(** The script of the page, as a function of what the widgets return:
    the two text inputs, the two number inputs and the button.  [upper] is
    [str.upper]. *)
Definition page (upper : string → string) (yf : Provider)
    (text1 text2 : string) (start_year end_year : Z) (clicked : bool)
  : list page_event :=
  let ticker1 := upper text1 in
  let ticker2 := upper text2 in
  Title "Stock Comparison Tool" ::
  if clicked then
    let run :=
      compare_stocks_over_range yf ticker1 ticker2 start_year end_year in
    (Message <$> snd run)
    ++ match fst run with
       | Some comparison_table =>
           [Subheader ("Comparison of " +:+ ticker1 +:+ " and " +:+ ticker2
                       +:+ " from " +:+ fstr start_year +:+ " to "
                       +:+ fstr end_year);
            Dataframe comparison_table]
       | None => []
       end
    ++ plot_stock_prices yf ticker1 ticker2 start_year end_year
  else [].

Definition is_dataframe (ev : page_event) : bool :=
  match ev with
  | Dataframe _ => true
  | _ => false
  end.

Definition is_pyplot (ev : page_event) : bool :=
  match ev with
  | Pyplot _ => true
  | _ => false
  end.

(** ** Further observations *)

(** The line items of the income statement and of the balance sheet that
    [compute_metrics] reads in the column of the year. *)
Definition income_items : list string :=
  ["Net Income"; "Gross Profit"; "Total Revenue"; "EBITDA"].

Definition balance_items : list string :=
  ["Total Equity Gross Minority Interest"; "Total Assets";
   "Total Liabilities Net Minority Interest"].

(** What one turn of the loop of [compare_stocks_over_range] displays. *)
Definition year_log (yf : Provider) (ticker1 ticker2 : string) (year : Z)
  : list ui_event :=
  Fetching ticker1 ticker2 year
  :: snd (get_annual_metrics yf ticker1 year)
  ++ snd (get_annual_metrics yf ticker2 year).

(** The string contains an underscore. *)
Fixpoint has_underscore (s : string) : bool :=
  match s with
  | EmptyString => false
  | String c s => String.eqb (String c "") "_" || has_underscore s
  end.

(** The income statement has no EBITDA row. *)
Definition no_ebitda_row : Ticker :=
  {| history _ _ := [90; 95; 100]%float;
     financials :=
       frame years4
             [("Net Income", [30; 24; 20; 10]%float);
              ("Gross Profit", [80; 70; 60; 50]%float);
              ("Total Revenue", [200; 160; 125; 100]%float)];
     balance_sheet := frame years4 balance_rows;
     cashflow := frame years4 [];
     info := sample_info |}.

(** The income statement ends in 2021: no column for 2022. *)
Definition no_income_2022 : Ticker :=
  {| history _ _ := [90; 95; 100]%float;
     financials :=
       frame ["2021"; "2020"]
             [("Net Income", [20; 10]%float);
              ("Gross Profit", [60; 50]%float);
              ("Total Revenue", [125; 100]%float);
              ("EBITDA", [32; 25]%float)];
     balance_sheet := frame years4 balance_rows;
     cashflow := frame years4 [];
     info := sample_info |}.

(** Revenue of 2021 reported as zero; no PEG ratio in [info]. *)
Definition zero_prior_revenue : Ticker :=
  {| history _ _ := [90; 95; 100]%float;
     financials :=
       frame years4
             [("Net Income", [30; 24; 20; 10]%float);
              ("Gross Profit", [80; 70; 60; 50]%float);
              ("Total Revenue", [200; 160; 0; 100]%float);
              ("EBITDA", [50; 40; 32; 25]%float)];
     balance_sheet := frame years4 balance_rows;
     cashflow := frame years4 [];
     info := sample_info |}.

Definition second_provider : Provider :=
  λ ticker,
    if String.eqb ticker "NOEB" then no_ebitda_row
    else if String.eqb ticker "OLD" then no_income_2022
    else if String.eqb ticker "ZERO" then zero_prior_revenue
    else sample_provider ticker.

(** A field as the specification wants it: unavailable or a finite number. *)
Definition finite_or_unavailable (v : scalar) : bool :=
  match v with
  | None => true
  | Some x => is_finite x
  end.

(** * Properties *)

(** ** Guarded division never raises *)

Lemma safe_divide_ratio numerator denominator :
  safe_divide numerator denominator = Ok (ratio numerator denominator).
Proof.
  unfold safe_divide, ratio, truthy, py_truediv.
  destruct numerator as [a|], denominator as [b|]; simpl; try reflexivity.
  destruct (b =? 0)%float; reflexivity.
Qed.

(** ** Successful runs of [compute_metrics] *)

Ltac case_result :=
  match goal with
  | |- context [rbind ?r _] =>
      lazymatch r with
      | safe_divide _ _ => rewrite (safe_divide_ratio _ _)
      | _ => destruct r; [|reflexivity]
      end; cbn [rbind]
  end.

(** Since [safe_divide] never raises, the only steps of [compute_metrics]
    that can fail are the reads. *)
Lemma compute_metrics_read_items stock stock_data year :
  compute_metrics stock stock_data year = read_items stock stock_data year.
Proof.
  unfold compute_metrics, read_items.
  repeat case_result.
  unfold metrics_dict.
  destruct (dict_get (info stock) "pegRatio") as [peg|] eqn:Hpeg;
    [reflexivity|].
  unfold dict_getitem.
  rewrite lookup_insert_eq. cbn [rbind].
  rewrite safe_divide_ratio. cbn [rbind].
  do 4 (rewrite lookup_insert_ne by done).
  rewrite lookup_insert_eq. cbn [rbind].
  rewrite safe_divide_ratio. reflexivity.
Qed.

Lemma rbind_Ok_inv {A B} (r : result A) (k : A → result B) (b : B) :
  rbind r k = Ok b → ∃ a, r = Ok a ∧ k a = Ok b.
Proof. destruct r as [a|e]; simpl; [eauto | discriminate]. Qed.

Lemma compute_metrics_Ok stock stock_data year metrics :
  compute_metrics stock stock_data year = Ok metrics ↔
  items_read stock stock_data year metrics.
Proof.
  rewrite compute_metrics_read_items. unfold read_items. split.
  - intros H.
    repeat (apply rbind_Ok_inv in H; destruct H as (? & ? & H)).
    unfold iloc_last in *.
    destruct (last stock_data) as [price|] eqn:Hlast; [|discriminate].
    unfold py_sub in *.
    repeat match goal with
           | H : match ?x with Some _ => _ | None => _ end = Ok _ |- _ =>
               destruct x; [|discriminate]
           end.
    simplify_eq. by econstructor.
  - intros [ni eq ta gp rev tl eb price prev H1 H2 H3 H4 H5 H6 H7 H8 H9 ->].
    rewrite H1, H2, H3, H4, H5, H6, H7, H9. cbn [rbind].
    unfold iloc_last. rewrite H8. reflexivity.
Qed.

(** [get_annual_metrics] returns a dict exactly when the year has prices
    and [compute_metrics] does not raise; it warns otherwise. *)
Lemma get_annual_metrics_Some yf ticker year metrics :
  fst (get_annual_metrics yf ticker year) = Some metrics ↔
  let stock_data :=
    history (yf ticker) (fstr year +:+ "-01-01") (fstr year +:+ "-12-31") in
  stock_data ≠ [] ∧ compute_metrics (yf ticker) stock_data year = Ok metrics.
Proof.
  unfold get_annual_metrics. cbv zeta.
  destruct (history _ _ _) as [|x data]; simpl.
  - split; [discriminate | intros [[] _]; reflexivity].
  - destruct (compute_metrics _ _ _) as [m|e]; simpl.
    + split; [intros [= ->]; done | intros [_ [= ->]]; done].
    + split; [discriminate | intros [_ [=]]].
Qed.

Lemma metrics_dict_dom info ni eq ta gp rev tl eb price prev diff :
  dom (metrics_dict info ni eq ta gp rev tl eb price prev diff)
  = list_to_set metric_names.
Proof.
  unfold metrics_dict, metric_names. cbv zeta.
  rewrite !dom_insert_L, dom_empty_L. cbn [list_to_set]. set_solver.
Qed.

Lemma metric_names_NoDup : NoDup metric_names.
Proof. apply (bool_decide_unpack _). by vm_compute. Qed.

Lemma metrics_dict_size info ni eq ta gp rev tl eb price prev diff :
  size (metrics_dict info ni eq ta gp rev tl eb price prev diff) = 10%nat.
Proof.
  rewrite <- size_dom, metrics_dict_dom.
  rewrite size_list_to_set by apply metric_names_NoDup. reflexivity.
Qed.

(** ** Claims about the helpers *)

(** On operands that are [None] or floats, [safe_divide] returns [None]
    when the numerator is [None], when the denominator is [None] and when
    the denominator is zero; otherwise it returns the quotient; and it does
    not raise. *)
Theorem safe_divide_spec (x y : scalar) :
  (x = None → safe_divide x y = Ok None) ∧
  (y = None → safe_divide x y = Ok None) ∧
  (∀ b, y = Some b → (b =? 0)%float = true → safe_divide x y = Ok None) ∧
  (∀ a b, x = Some a → y = Some b → (b =? 0)%float = false →
          safe_divide x y = Ok (Some (a / b)%float)) ∧
  (∃ v, safe_divide x y = Ok v).
Proof.
  rewrite safe_divide_ratio. unfold ratio. repeat split.
  - by intros ->.
  - intros ->. by destruct x.
  - intros b -> Hb. rewrite Hb. by destruct x.
  - intros a b -> -> Hb. by rewrite Hb.
  - eauto.
Qed.

Lemma safe_divide_spec_witness :
  safe_divide None (Some 2%float) = Ok None ∧
  safe_divide (Some 1%float) None = Ok None ∧
  safe_divide (Some 1%float) (Some 0%float) = Ok None ∧
  safe_divide (Some 1%float) (Some (-0)%float) = Ok None ∧
  safe_divide (Some 1%float) (Some 4%float) = Ok (Some 0.25%float).
Proof.
  destruct (safe_divide_spec None (Some 2%float)) as (H1 & _).
  destruct (safe_divide_spec (Some 1%float) None) as (_ & H2 & _).
  destruct (safe_divide_spec (Some 1%float) (Some 0%float)) as (_ & _ & H3 & _).
  destruct (safe_divide_spec (Some 1%float) (Some (-0)%float))
    as (_ & _ & H4 & _).
  destruct (safe_divide_spec (Some 1%float) (Some 4%float))
    as (_ & _ & _ & H5 & _).
  split; [exact (H1 eq_refl)|].
  split; [exact (H2 eq_refl)|].
  split; [exact (H3 _ eq_refl eq_refl)|].
  split; [exact (H4 _ eq_refl eq_refl)|].
  exact (H5 _ _ eq_refl eq_refl eq_refl).
Defined.

(** C3: [safe_divide] does raise: only [ZeroDivisionError] is caught, and
    the division of an [int] too large for a float raises [OverflowError],
    whether the other operand is a float or an [int]. *)
Theorem safe_divide_overflow :
  PyNum.safe_divide (Some (PyNum.PyInt (10 ^ 400))) (Some (PyNum.PyFloat 2))
  = Raise OverflowError ∧
  PyNum.safe_divide (Some (PyNum.PyInt (10 ^ 400))) (Some (PyNum.PyInt 1))
  = Raise OverflowError ∧
  PyNum.safe_divide (Some (PyNum.PyFloat 2)) (Some (PyNum.PyInt (10 ^ 400)))
  = Raise OverflowError.
Proof. repeat split; vm_compute; reflexivity. Qed.

(** *** The sum of a Series *)


Lemma pairwise_sum_short fuel (values : list float) :
  (length values < 8)%nat →
  pairwise_sum fuel values = add_all (-0)%float values.
Proof.
  intros H%Nat.ltb_lt. destruct fuel; cbn [pairwise_sum]; by rewrite H.
Qed.

(** The first part of a split is a multiple-of-eight number of elements
    below the half. *)
Lemma half_bounds (n : nat) :
  (n / 2 - (n / 2) mod 8 ≤ n / 2 ∧ 2 * (n / 2) ≤ n ∧ n < 2 * (n / 2) + 2
   ∧ n / 2 < n / 2 - (n / 2) mod 8 + 8)%nat.
Proof.
  pose proof (Nat.div_mod_eq n 2).
  pose proof (Nat.mod_upper_bound n 2).
  pose proof (Nat.mod_upper_bound (n / 2) 8).
  pose proof (Nat.Div0.mod_le (n / 2) 8).
  lia.
Qed.

(** The splitting never runs out of fuel: any fuel that is at least the
    number of elements gives the same sum. *)
Lemma pairwise_sum_fuel fuel1 fuel2 (values : list float) :
  (length values ≤ fuel1)%nat → (length values ≤ fuel2)%nat →
  pairwise_sum fuel1 values = pairwise_sum fuel2 values.
Proof.
  revert fuel2 values.
  induction fuel1 as [|fuel1 IH]; intros fuel2 values H1 H2.
  { rewrite !pairwise_sum_short by lia. reflexivity. }
  destruct fuel2 as [|fuel2].
  { rewrite !pairwise_sum_short by lia. reflexivity. }
  cbn [pairwise_sum].
  destruct (length values <? 8)%nat; [reflexivity|].
  destruct (length values <=? 128)%nat eqn:Hn; [reflexivity|].
  apply Nat.leb_gt in Hn.
  pose proof (half_bounds (length values)).
  f_equal; apply IH; rewrite ?length_take, ?length_drop; lia.
Qed.

(** Above 128 elements the sum is the sum of the two parts, each with the
    fuel of its own length. *)
Lemma pairwise_sum_split (values : list float) :
  (128 < length values)%nat →
  pairwise_sum (length values) values
  = (pairwise_sum
       (length (take (length values / 2 - (length values / 2) mod 8) values))
       (take (length values / 2 - (length values / 2) mod 8) values)
     + pairwise_sum
         (length (drop (length values / 2 - (length values / 2) mod 8) values))
         (drop (length values / 2 - (length values / 2) mod 8) values))%float.
Proof.
  intros Hn. destruct (length values) as [|fuel] eqn:Hlen; [lia|].
  cbn [pairwise_sum]. rewrite Hlen.
  rewrite (proj2 (Nat.ltb_ge _ _)) by lia.
  rewrite (proj2 (Nat.leb_gt _ _)) by lia.
  pose proof (half_bounds (S fuel)).
  f_equal; apply pairwise_sum_fuel;
    rewrite ?length_take, ?length_drop; lia.
Qed.

(** The eight running sums stay eight while full groups are added. *)
Lemma add_groups_length (r : list float) groups (values : list float) :
  length r = 8%nat → (8 * groups ≤ length values)%nat →
  length (add_groups r groups values) = 8%nat.
Proof.
  revert r values. induction groups as [|groups IH]; intros r values Hr Hn;
    cbn [add_groups]; [done|].
  apply IH; [|rewrite length_drop; lia].
  rewrite length_zip_with, length_take. lia.
Qed.


(** From eight elements on the order of the additions is numpy's: nine
    numbers are added into eight running sums first, so that the eight
    ones are not lost one by one against the large number. *)
Example series_sum_pairwise :
  series_sum [10000000000000000; 1; 1; 1; 1; 1; 1; 1; 1]%float
  = 10000000000000008%float ∧
  fold_left PrimFloat.add [10000000000000000; 1; 1; 1; 1; 1; 1; 1; 1]%float
    0%float
  = 10000000000000000%float.
Proof. split; vm_compute; reflexivity. Qed.

(** C9: on an empty Series [get_scalar] returns the number 0, not [None]. *)
Theorem get_scalar_empty_series :
  get_scalar (PSeries []) = Some 0%float ∧ get_scalar (PSeries []) ≠ None.
Proof. split; [reflexivity | discriminate]. Qed.

(** ** Claims about [get_annual_metrics] *)

Ltac lookup_metric :=
  unfold metrics_dict; cbv zeta;
  repeat (rewrite lookup_insert_ne by done); rewrite lookup_insert_eq.

Lemma fetch_missing_column df row label :
  has_column df label = false → fetch df row label = Ok None.
Proof. unfold fetch. by intros ->. Qed.

Lemma get_annual_metrics_inv yf ticker year metrics :
  fst (get_annual_metrics yf ticker year) = Some metrics →
  ∃ stock_data, items_read (yf ticker) stock_data year metrics.
Proof.
  intros (_ & H)%get_annual_metrics_Some. cbv zeta in H.
  apply compute_metrics_Ok in H. eauto.
Qed.

Lemma available_Some yf ticker year :
  available yf ticker year = true ↔
  ∃ metrics, fst (get_annual_metrics yf ticker year) = Some metrics.
Proof.
  unfold available. destruct (fst _) as [m|]; split; eauto; try done.
  by intros [? ?].
Qed.

Lemma metric_Some yf ticker year metrics key :
  fst (get_annual_metrics yf ticker year) = Some metrics →
  metric yf ticker year key = metrics !! key.
Proof. unfold metric. by intros ->. Qed.

(** C6: the PEG ratio is the "pegRatio" value of [info] when there is one,
    and [safe_divide(P/E Ratio, safe_divide(Revenue Growth, 100))]
    otherwise. *)
Theorem peg_ratio_source yf ticker year :
  available yf ticker year = true →
  match dict_get (info (yf ticker)) "pegRatio" with
  | Some peg => metric yf ticker year "PEG Ratio" = Some (Some peg)
  | None =>
      ∃ pe growth rate peg,
        metric yf ticker year "P/E Ratio" = Some pe ∧
        metric yf ticker year "Revenue Growth" = Some growth ∧
        safe_divide growth (Some 100%float) = Ok rate ∧
        safe_divide pe rate = Ok peg ∧
        metric yf ticker year "PEG Ratio" = Some peg
  end.
Proof.
  intros [metrics Hm]%available_Some.
  rewrite !(metric_Some _ _ _ _ _ Hm).
  apply get_annual_metrics_inv in Hm
    as (stock_data & [ni eq ta gp rev tl eb price prev _ _ _ _ _ _ _ _ _ ->]).
  destruct (dict_get (info (yf ticker)) "pegRatio") as [peg|] eqn:Hpeg.
  - lookup_metric. by rewrite Hpeg.
  - do 4 eexists. split; [by lookup_metric|]. split; [by lookup_metric|].
    rewrite !safe_divide_ratio. split; [done|]. split; [done|].
    lookup_metric. by rewrite Hpeg.
Qed.

Lemma peg_ratio_source_witness :
  metric sample_provider "GAP" 2021 "PEG Ratio" = Some (Some 1.5%float) ∧
  ∃ pe growth rate peg,
    metric sample_provider "FULL" 2021 "P/E Ratio" = Some pe ∧
    metric sample_provider "FULL" 2021 "Revenue Growth" = Some growth ∧
    safe_divide growth (Some 100%float) = Ok rate ∧
    safe_divide pe rate = Ok peg ∧
    metric sample_provider "FULL" 2021 "PEG Ratio" = Some peg.
Proof.
  split.
  - assert (Ha : available sample_provider "GAP" 2021 = true)
      by (vm_compute; reflexivity).
    pose proof (peg_ratio_source sample_provider "GAP" 2021 Ha) as H.
    replace (dict_get (info (sample_provider "GAP")) "pegRatio")
      with (Some 1.5%float) in H by (vm_compute; reflexivity).
    exact H.
  - assert (Ha : available sample_provider "FULL" 2021 = true)
      by (vm_compute; reflexivity).
    pose proof (peg_ratio_source sample_provider "FULL" 2021 Ha) as H.
    replace (dict_get (info (sample_provider "FULL")) "pegRatio")
      with (@None float) in H by (vm_compute; reflexivity).
    exact H.
Defined.

(** The fallback of C6 on the sample data: 25 / (0.25 / 100). *)
Example peg_ratio_fallback_value :
  metric sample_provider "FULL" 2021 "P/E Ratio" = Some (Some 25%float) ∧
  metric sample_provider "FULL" 2021 "Revenue Growth" = Some (Some 0.25%float) ∧
  metric sample_provider "FULL" 2021 "PEG Ratio" = Some (Some 10000%float).
Proof. repeat split; vm_compute; reflexivity. Qed.

(** C1 (as the code has it): when the balance sheet has no column for the
    year and the income statement, prices and EPS are in order, the
    computation is not aborted; ROE, Debt-to-Equity and also ROA (total
    assets are read from the same column) are [None], while Gross Profit
    Margin and P/E Ratio are computed. *)
Theorem missing_balance_sheet_column yf ticker year
    (net_income gross_profit revenue previous_revenue eps price : float)
    (ebitda : scalar) :
  last (history (yf ticker) (fstr year +:+ "-01-01") (fstr year +:+ "-12-31"))
  = Some price →
  has_column (balance_sheet (yf ticker)) (fstr year) = false →
  fetch (financials (yf ticker)) "Net Income" (fstr year)
  = Ok (Some net_income) →
  fetch (financials (yf ticker)) "Gross Profit" (fstr year)
  = Ok (Some gross_profit) →
  fetch (financials (yf ticker)) "Total Revenue" (fstr year)
  = Ok (Some revenue) →
  fetch (financials (yf ticker)) "EBITDA" (fstr year) = Ok ebitda →
  fetch (financials (yf ticker)) "Total Revenue" (fstr (year - 1))
  = Ok (Some previous_revenue) →
  (revenue =? 0)%float = false →
  dict_get (info (yf ticker)) "trailingEps" = Some eps →
  (eps =? 0)%float = false →
  available yf ticker year = true ∧
  metric yf ticker year "ROE" = Some None ∧
  metric yf ticker year "Debt-to-Equity" = Some None ∧
  metric yf ticker year "ROA" = Some None ∧
  metric yf ticker year "Gross Profit Margin"
  = Some (Some (gross_profit / revenue)%float) ∧
  metric yf ticker year "P/E Ratio" = Some (Some (price / eps)%float).
Proof.
  intros Hprice Hcol Hni Hgp Hrev Heb Hprev Hrev0 Heps Heps0.
  assert (Hm : fst (get_annual_metrics yf ticker year)
               = Some (metrics_dict (info (yf ticker)) (Some net_income) None
                         None (Some gross_profit) (Some revenue) None ebitda
                         (Some price) (Some previous_revenue)
                         (Some (revenue - previous_revenue)%float))).
  { apply get_annual_metrics_Some. split.
    - intros Hnil. rewrite Hnil in Hprice. discriminate.
    - apply compute_metrics_Ok.
      by eapply ItemsRead; eauto using fetch_missing_column. }
  split; [apply available_Some; eauto|].
  rewrite !(metric_Some _ _ _ _ _ Hm).
  repeat split; lookup_metric; try done.
  - simpl. by rewrite Hrev0.
  - rewrite Heps. simpl. by rewrite Heps0.
Qed.

Lemma missing_balance_sheet_column_witness :
  available sample_provider "NOBS" 2022 = true ∧
  metric sample_provider "NOBS" 2022 "ROE" = Some None ∧
  metric sample_provider "NOBS" 2022 "Debt-to-Equity" = Some None ∧
  metric sample_provider "NOBS" 2022 "ROA" = Some None ∧
  metric sample_provider "NOBS" 2022 "Gross Profit Margin"
  = Some (Some (70 / 160)%float) ∧
  metric sample_provider "NOBS" 2022 "P/E Ratio" = Some (Some (100 / 4)%float).
Proof.
  apply (missing_balance_sheet_column sample_provider "NOBS" 2022
           24 70 160 125 4 100 (Some 40%float));
    vm_compute; reflexivity.
Defined.

(** C1, as stated, fails: with the balance-sheet column of 2022 missing and
    the rest of the data in order, ROA is unavailable as well, not a
    number. *)
Lemma missing_balance_sheet_column_counterexample :
  has_column (balance_sheet (sample_provider "NOBS")) (fstr 2022) = false ∧
  has_column (financials (sample_provider "NOBS")) (fstr 2022) = true ∧
  fetch (financials (sample_provider "NOBS")) "Net Income" (fstr 2022)
  = Ok (Some 24%float) ∧
  available sample_provider "NOBS" 2022 = true ∧
  metric sample_provider "NOBS" 2022 "ROA" = Some None ∧
  ¬ ∃ x : float, metric sample_provider "NOBS" 2022 "ROA" = Some (Some x).
Proof.
  assert (E : metric sample_provider "NOBS" 2022 "ROA" = Some None)
    by (vm_compute; reflexivity).
  repeat split; try (vm_compute; reflexivity).
  intros [x Hx]. rewrite E in Hx. discriminate.
Qed.

(** C2 (what the code does): with no column for the previous year in the
    income statement, [revenue - previous_revenue] raises and the whole
    computation of the year is abandoned: no dict is returned. *)
Theorem missing_prior_year_aborts yf ticker year :
  has_column (financials (yf ticker)) (fstr (year - 1)) = false →
  available yf ticker year = false.
Proof.
  intros Hcol. destruct (available yf ticker year) eqn:Ha; [|done].
  apply available_Some in Ha as [metrics Hm].
  apply get_annual_metrics_inv in Hm
    as (stock_data & [ni eq ta gp rev tl eb price prev _ _ _ _ _ _ _ _ H _]).
  rewrite fetch_missing_column in H by done. discriminate.
Qed.

Lemma missing_prior_year_aborts_witness :
  available sample_provider "NEW" 2022 = false.
Proof.
  apply (missing_prior_year_aborts sample_provider "NEW" 2022).
  vm_compute. reflexivity.
Defined.

(** The run behind C2: the data of 2022 are complete, only the 2021 column
    is absent, and the result is [None] with the warning of the [except]
    branch. *)
Example missing_prior_year_run :
  has_column (financials (sample_provider "NEW")) (fstr 2022) = true ∧
  has_column (financials (sample_provider "NEW")) (fstr 2021) = false ∧
  fetch (financials (sample_provider "NEW")) "Total Revenue" (fstr 2022)
  = Ok (Some 160%float) ∧
  get_annual_metrics sample_provider "NEW" 2022
  = (None, [ErrorCalculating 2022 TypeError]).
Proof. repeat split; vm_compute; reflexivity. Qed.

Lemma get_annual_metrics_dom yf ticker year metrics :
  fst (get_annual_metrics yf ticker year) = Some metrics →
  dom metrics = list_to_set metric_names.
Proof.
  intros (stock_data & [ni eq ta gp rev tl eb price prev _ _ _ _ _ _ _ _ _ ->])
    %get_annual_metrics_inv.
  apply metrics_dict_dom.
Qed.

(** C8 (as the code has it): a returned dict has exactly the ten metric
    names as keys, each holding [None] or a float; nothing makes that float
    finite. *)
Theorem ten_fields yf ticker year :
  available yf ticker year = true →
  (∀ key, key ∈ metric_names →
     ∃ v : scalar, metric yf ticker year key = Some v ∧
                   (v = None ∨ ∃ x : float, v = Some x)) ∧
  (∀ key, key ∉ metric_names → metric yf ticker year key = None).
Proof.
  intros [metrics Hm]%available_Some.
  pose proof (get_annual_metrics_dom _ _ _ _ Hm) as Hdom.
  split; intros key Hkey; rewrite (metric_Some _ _ _ _ _ Hm).
  - assert (Hin : key ∈ dom metrics) by (rewrite Hdom; set_solver).
    apply elem_of_dom in Hin as [v Hv]. exists v. split; [done|].
    destruct v; eauto.
  - apply not_elem_of_dom. rewrite Hdom. set_solver.
Qed.

Lemma ten_fields_witness :
  (∀ key, key ∈ metric_names →
     ∃ v : scalar, metric sample_provider "FULL" 2022 key = Some v ∧
                   (v = None ∨ ∃ x : float, v = Some x)) ∧
  (∀ key, key ∉ metric_names → metric sample_provider "FULL" 2022 key = None).
Proof.
  apply (ten_fields sample_provider "FULL" 2022). vm_compute. reflexivity.
Defined.

(** C8, as stated, fails: finite figures whose quotient overflows give an
    infinite ROA, and a NaN cell of the statement gives a NaN P/EBITDA. *)
Lemma finite_or_unavailable_counterexample :
  fetch (financials (sample_provider "HUGE")) "Net Income" (fstr 2022)
  = Ok (Some 0x1p1023%float) ∧
  fetch (balance_sheet (sample_provider "HUGE")) "Total Assets" (fstr 2022)
  = Ok (Some 0x1p-1000%float) ∧
  is_finite 0x1p1023 = true ∧ is_finite 0x1p-1000 = true ∧
  metric sample_provider "HUGE" 2022 "ROA" = Some (Some infinity) ∧
  finite_or_unavailable (Some infinity) = false ∧
  metric sample_provider "NANE" 2022 "P/EBITDA" = Some (Some nan) ∧
  finite_or_unavailable (Some nan) = false.
Proof. repeat split; vm_compute; reflexivity. Qed.

(** ** The range loop *)

Lemma fst_ui_bind {A B} (m : ui A) (k : A → ui B) :
  fst (ui_bind m k) = fst (k (fst m)).
Proof. unfold ui_bind. destruct m as [a log1]. simpl. by destruct (k a). Qed.

Lemma snd_ui_bind {A B} (m : ui A) (k : A → ui B) :
  snd (ui_bind m k) = snd m ++ snd (k (fst m)).
Proof. unfold ui_bind. destruct m as [a log1]. simpl. by destruct (k a). Qed.

(** A returned dict is never empty, so [if metrics1 and metrics2] only
    tests for [None]. *)
Lemma get_annual_metrics_truthy yf ticker year metrics :
  fst (get_annual_metrics yf ticker year) = Some metrics →
  dict_truthy metrics = true.
Proof.
  intros (stock_data & [ni eq ta gp rev tl eb price prev _ _ _ _ _ _ _ _ _ ->])
    %get_annual_metrics_inv.
  unfold dict_truthy. by rewrite metrics_dict_size.
Qed.

Lemma compare_loop_rows yf ticker1 ticker2 years yearly_data :
  fst (compare_loop yf ticker1 ticker2 years yearly_data)
  = yearly_data ++ omap (comparison_row yf ticker1 ticker2) years.
Proof.
  revert yearly_data.
  induction years as [|year years IH]; intros yearly_data;
    cbn [compare_loop omap list_omap].
  { simpl. by rewrite app_nil_r. }
  rewrite !fst_ui_bind. unfold comparison_row.
  destruct (fst (get_annual_metrics yf ticker1 year)) as [d1|] eqn:H1;
    [|by rewrite IH].
  destruct (fst (get_annual_metrics yf ticker2 year)) as [d2|] eqn:H2;
    [|by rewrite IH].
  rewrite (get_annual_metrics_truthy _ _ _ _ H1).
  rewrite (get_annual_metrics_truthy _ _ _ _ H2). cbn [andb].
  by rewrite IH, <- app_assoc.
Qed.

Lemma compare_stocks_over_range_rows yf ticker1 ticker2 start_year end_year :
  fst (compare_stocks_over_range yf ticker1 ticker2 start_year end_year)
  = match omap (comparison_row yf ticker1 ticker2)
            (range start_year (end_year + 1)) with
    | [] => None
    | row :: rows => Some (row :: rows)
    end.
Proof.
  unfold compare_stocks_over_range. rewrite fst_ui_bind, compare_loop_rows.
  rewrite app_nil_l. by destruct (omap _ _).
Qed.

Lemma prefix_key_not_Year ticker key : prefix_key ticker key ≠ "Year".
Proof.
  unfold prefix_key.
  destruct ticker as [|a1 [|a2 [|a3 [|a4 [|a5 ticker]]]]];
    cbn [String.append]; intros H; injection H; intros; discriminate.
Qed.

#[global] Instance prefix_key_inj ticker : Inj (=) (=) (prefix_key ticker).
Proof.
  intros k1 k2 H. unfold prefix_key in H.
  by do 2 apply (inj (String.append _)) in H.
Qed.

Lemma prefixed_Year ticker metrics : prefixed ticker metrics !! "Year" = None.
Proof.
  unfold prefixed. apply lookup_kmap_None; [apply _|].
  intros key H. by apply symmetry, prefix_key_not_Year in H.
Qed.

Lemma combine_Year year ticker1 ticker2 d1 d2 :
  combine year (prefixed ticker1 d1) (prefixed ticker2 d2) !! "Year"
  = Some (PInt year).
Proof.
  unfold combine.
  rewrite lookup_union_r by apply prefixed_Year.
  rewrite lookup_union_r by apply prefixed_Year.
  apply lookup_singleton_eq.
Qed.

Lemma both_available_row yf ticker1 ticker2 year :
  both_available yf ticker1 ticker2 year = true ↔
  is_Some (comparison_row yf ticker1 ticker2 year).
Proof.
  unfold both_available, available, comparison_row.
  destruct (fst (get_annual_metrics yf ticker1 year)),
           (fst (get_annual_metrics yf ticker2 year)); cbn [andb];
    split; try done; try (intros [? ?]; done); eauto.
Qed.

Lemma table_years_rows yf ticker1 ticker2 years :
  table_years (omap (comparison_row yf ticker1 ticker2) years)
  = (λ year, Some (PInt year))
    <$> filter (λ year, both_available yf ticker1 ticker2 year) years.
Proof.
  unfold table_years.
  induction years as [|year years IH]; [done|]. cbn [omap list_omap].
  rewrite filter_cons.
  pose proof (both_available_row yf ticker1 ticker2 year) as Hrow.
  destruct (comparison_row yf ticker1 ticker2 year) as [row|] eqn:Er.
  - rewrite decide_True by (apply Is_true_true, Hrow; eauto).
    rewrite !fmap_cons. f_equal; [|done].
    unfold comparison_row in Er. 
    destruct (fst (get_annual_metrics yf ticker1 year)); [|done].
    destruct (fst (get_annual_metrics yf ticker2 year)); [|done].
    injection Er as <-.
    apply combine_Year.
  - rewrite decide_False; [done|].
    intros Hb%Is_true_true%Hrow. by destruct Hb.
Qed.

(** C4: [compare_stocks_over_range] emits one row for each year of
    [start_year..end_year] in which both computations return a dict, in
    ascending order of the years, and nothing for the other years; with
    both tickers available in 2021 to 2023 the rows are those of 2021, 2022
    and 2023, and with 2022 missing they are those of 2021 and 2023. *)
Theorem compare_rows_per_year yf ticker1 ticker2 start_year end_year :
  fst (compare_stocks_over_range yf ticker1 ticker2 start_year end_year)
  = match omap (comparison_row yf ticker1 ticker2)
            (range start_year (end_year + 1)) with
    | [] => None
    | row :: rows => Some (row :: rows)
    end ∧
  table_years (omap (comparison_row yf ticker1 ticker2)
                 (range start_year (end_year + 1)))
  = (λ year, Some (PInt year))
    <$> filter (λ year, both_available yf ticker1 ticker2 year)
          (range start_year (end_year + 1)) ∧
  (∀ (i : nat) year,
     range start_year (end_year + 1) !! i = Some year ↔
     year = start_year + Z.of_nat i ∧ year ≤ end_year) ∧
  (both_available yf ticker1 ticker2 2021 = true →
   both_available yf ticker1 ticker2 2022 = true →
   both_available yf ticker1 ticker2 2023 = true →
   ∃ r1 r2 r3,
     fst (compare_stocks_over_range yf ticker1 ticker2 2021 2023)
     = Some [r1; r2; r3] ∧
     table_years [r1; r2; r3]
     = [Some (PInt 2021); Some (PInt 2022); Some (PInt 2023)]) ∧
  (both_available yf ticker1 ticker2 2021 = true →
   both_available yf ticker1 ticker2 2022 = false →
   both_available yf ticker1 ticker2 2023 = true →
   ∃ r1 r3,
     fst (compare_stocks_over_range yf ticker1 ticker2 2021 2023)
     = Some [r1; r3] ∧
     table_years [r1; r3] = [Some (PInt 2021); Some (PInt 2023)]).
Proof.
  assert (Hyears : ∀ rows,
            omap (comparison_row yf ticker1 ticker2) (range 2021 (2023 + 1))
            = rows →
            fst (compare_stocks_over_range yf ticker1 ticker2 2021 2023)
            = match rows with [] => None | r :: rs => Some (r :: rs) end ∧
            table_years rows
            = (λ year, Some (PInt year))
              <$> filter (λ year, both_available yf ticker1 ticker2 year)
                    [2021; 2022; 2023]).
  { intros rows <-. split; [apply compare_stocks_over_range_rows|].
    exact (table_years_rows yf ticker1 ticker2 [2021; 2022; 2023]). }
  split; [apply compare_stocks_over_range_rows|].
  split; [apply table_years_rows|].
  split; [|split].
  - intros i year. unfold range. rewrite lookup_seqZ. lia.
  - intros H1 H2 H3.
    destruct (Hyears _ eq_refl) as [Hfst Hty].
    rewrite !filter_cons, filter_nil, H1, H2, H3 in Hty.
    unfold table_years in *.
    destruct (omap _ _) as [|r1 [|r2 [|r3 [|r4 rows]]]];
      cbn [fmap list_fmap decide Is_true_dec] in Hty; try discriminate Hty.
    exists r1, r2, r3. split; [exact Hfst | exact Hty].
  - intros H1 H2 H3.
    destruct (Hyears _ eq_refl) as [Hfst Hty].
    rewrite !filter_cons, filter_nil, H1, H2, H3 in Hty.
    unfold table_years in *.
    destruct (omap _ _) as [|r1 [|r3 [|r4 rows]]];
      cbn [fmap list_fmap decide Is_true_dec] in Hty; try discriminate Hty.
    exists r1, r3. split; [exact Hfst | exact Hty].
Qed.

Lemma compare_rows_per_year_witness :
  (∃ r1 r2 r3,
     fst (compare_stocks_over_range sample_provider "FULL" "NOBS" 2021 2023)
     = Some [r1; r2; r3] ∧
     table_years [r1; r2; r3]
     = [Some (PInt 2021); Some (PInt 2022); Some (PInt 2023)]) ∧
  (∃ r1 r3,
     fst (compare_stocks_over_range sample_provider "FULL" "GAP" 2021 2023)
     = Some [r1; r3] ∧
     table_years [r1; r3] = [Some (PInt 2021); Some (PInt 2023)]).
Proof.
  split.
  - destruct (compare_rows_per_year sample_provider "FULL" "NOBS" 2021 2023)
      as (_ & _ & _ & H & _).
    apply H; vm_compute; reflexivity.
  - destruct (compare_rows_per_year sample_provider "FULL" "GAP" 2021 2023)
      as (_ & _ & _ & _ & H).
    apply H; vm_compute; reflexivity.
Defined.

Lemma omap_nil_iff {A B} (f : A → option B) (l : list A) :
  omap f l = [] ↔ ∀ x, x ∈ l → f x = None.
Proof.
  induction l as [|x l IH]; cbn [omap list_omap].
  - split; [intros _ y Hy; by apply elem_of_nil in Hy | done].
  - destruct (f x) eqn:Hx.
    + split; [done|]. intros H. specialize (H x (list_elem_of_here _ _)).
      congruence.
    + rewrite IH. split.
      * intros H y [->|Hy]%elem_of_cons; auto.
      * intros H y Hy. apply H. by apply list_elem_of_further.
Qed.

Lemma both_available_false yf ticker1 ticker2 year :
  both_available yf ticker1 ticker2 year = false ↔
  comparison_row yf ticker1 ticker2 year = None.
Proof.
  pose proof (both_available_row yf ticker1 ticker2 year) as H.
  destruct (both_available yf ticker1 ticker2 year),
           (comparison_row yf ticker1 ticker2 year) as [row|];
    split; try done.
  - intros _. destruct (proj1 H eq_refl) as [? ?]. discriminate.
  - intros _. assert (false = true) by (apply H; eauto). discriminate.
Qed.

(** C5: when no year of the range has metrics for both tickers,
    [compare_stocks_over_range] returns [None] and its last message is the
    warning; it never returns a table without rows. *)
Theorem empty_result_is_unavailable yf ticker1 ticker2 start_year end_year :
  let run := compare_stocks_over_range yf ticker1 ticker2 start_year end_year in
  fst run ≠ Some [] ∧
  (fst run = None ↔
   ∀ year, start_year ≤ year ≤ end_year →
           both_available yf ticker1 ticker2 year = false) ∧
  (fst run = None →
   last (snd run) = Some (NoDataAvailable ticker1 ticker2) ∧
   is_warning (NoDataAvailable ticker1 ticker2) = true).
Proof.
  cbv zeta.
  assert (Hnone :
    fst (compare_stocks_over_range yf ticker1 ticker2 start_year end_year)
    = None ↔
    omap (comparison_row yf ticker1 ticker2) (range start_year (end_year + 1))
    = []).
  { rewrite compare_stocks_over_range_rows.
    destruct (omap _ _); split; done. }
  split; [|split].
  - rewrite compare_stocks_over_range_rows. by destruct (omap _ _).
  - rewrite Hnone, omap_nil_iff. unfold range.
    setoid_rewrite elem_of_seqZ. setoid_rewrite both_available_false.
    split; intros H year Hyear; apply H; lia.
  - intros H. split; [|done]. apply Hnone in H.
    unfold compare_stocks_over_range.
    rewrite snd_ui_bind, compare_loop_rows, app_nil_l, H.
    apply last_snoc.
Qed.

Lemma empty_result_is_unavailable_witness :
  last (snd (compare_stocks_over_range sample_provider "FULL" "NEW" 2021 2022))
  = Some (NoDataAvailable "FULL" "NEW") ∧
  is_warning (NoDataAvailable "FULL" "NEW") = true.
Proof.
  destruct (empty_result_is_unavailable sample_provider "FULL" "NEW" 2021 2022)
    as (_ & _ & H).
  apply H. vm_compute. reflexivity.
Defined.

(** ** Rows for one ticker given twice *)

Lemma prefixed_lookup ticker metrics key :
  prefixed ticker metrics !! prefix_key ticker key = PNum <$> metrics !! key.
Proof. unfold prefixed. rewrite lookup_kmap by apply _. by rewrite lookup_fmap. Qed.

Lemma prefixed_None ticker (d1 d2 : gmap string scalar) key :
  dom d1 = dom d2 →
  prefixed ticker d2 !! key = None → prefixed ticker d1 !! key = None.
Proof.
  unfold prefixed. intros Hdom. rewrite !lookup_kmap_None by apply _.
  intros H i Hi. specialize (H i Hi). rewrite lookup_fmap in *.
  apply fmap_None in H. apply fmap_None.
  apply not_elem_of_dom. rewrite Hdom. by apply not_elem_of_dom.
Qed.

Lemma prefixed_size ticker (metrics : gmap string scalar) :
  size (prefixed ticker metrics) = size metrics.
Proof.
  unfold prefixed.
  induction metrics as [|key v metrics Hkey IH] using map_ind.
  - by rewrite fmap_empty, kmap_empty, !map_size_empty.
  - rewrite fmap_insert, kmap_insert by apply _.
    rewrite !map_size_insert_None; [by rewrite IH | done |].
    rewrite lookup_kmap by apply _. by rewrite lookup_fmap, Hkey.
Qed.

(** The second dict takes the place of the first under the shared keys. *)
Lemma combine_same_ticker year ticker (d1 d2 : gmap string scalar) :
  dom d1 = dom d2 →
  combine year (prefixed ticker d1) (prefixed ticker d2)
  = <["Year" := PInt year]> (prefixed ticker d2).
Proof.
  intros Hdom. apply map_eq. intros key. unfold combine.
  destruct (decide (key = "Year")) as [->|Hne].
  - rewrite lookup_insert_eq. apply combine_Year.
  - rewrite lookup_insert_ne by done.
    destruct (prefixed ticker d2 !! key) as [v|] eqn:H2.
    + by apply lookup_union_Some_l.
    + rewrite lookup_union_r by done.
      rewrite lookup_union_l by (by apply lookup_singleton_ne).
      by apply (prefixed_None _ _ d2).
Qed.

(** C10: when both ticker arguments are the same, the two sets of metrics
    land on the same ten prefixed keys; the row holds the year and one set
    of ten entries, those of the second computation. *)
Theorem same_ticker_row ticker :
  (∀ year (d1 d2 : gmap string scalar),
     dom d1 = list_to_set metric_names →
     dom d2 = list_to_set metric_names →
     combine year (prefixed ticker d1) (prefixed ticker d2)
     = <["Year" := PInt year]> (prefixed ticker d2) ∧
     size (combine year (prefixed ticker d1) (prefixed ticker d2)) = 11%nat ∧
     ∀ key,
       combine year (prefixed ticker d1) (prefixed ticker d2)
       !! prefix_key ticker key = PNum <$> d2 !! key) ∧
  (∀ yf year row,
     comparison_row yf ticker ticker year = Some row →
     size row = 11%nat ∧
     row !! "Year" = Some (PInt year) ∧
     ∀ key, row !! prefix_key ticker key = PNum <$> metric yf ticker year key).
Proof.
  assert (Hrow : ∀ year (d1 d2 : gmap string scalar),
     dom d1 = list_to_set metric_names →
     dom d2 = list_to_set metric_names →
     combine year (prefixed ticker d1) (prefixed ticker d2)
     = <["Year" := PInt year]> (prefixed ticker d2) ∧
     size (combine year (prefixed ticker d1) (prefixed ticker d2)) = 11%nat ∧
     ∀ key,
       combine year (prefixed ticker d1) (prefixed ticker d2)
       !! prefix_key ticker key = PNum <$> d2 !! key).
  { intros year d1 d2 H1 H2.
    rewrite combine_same_ticker by congruence. split; [done|]. split.
    - rewrite map_size_insert_None by apply prefixed_Year.
      rewrite prefixed_size, <- size_dom, H2.
      rewrite size_list_to_set by apply metric_names_NoDup. reflexivity.
    - intros key.
      rewrite lookup_insert_ne by (apply not_eq_sym, prefix_key_not_Year).
      apply prefixed_lookup. }
  split; [exact Hrow|].
  intros yf year row Hr. unfold comparison_row, metric in *.
  destruct (fst (get_annual_metrics yf ticker year)) as [d|] eqn:Hd;
    [|discriminate].
  injection Hr as <-.
  pose proof (get_annual_metrics_dom _ _ _ _ Hd) as Hdom.
  destruct (Hrow year d d Hdom Hdom) as (_ & Hsize & Hkeys).
  split; [exact Hsize|]. split; [apply combine_Year | exact Hkeys].
Qed.

Lemma same_ticker_row_witness :
  combine 2021 (prefixed "TSLA" first_metrics) (prefixed "TSLA" second_metrics)
  = <["Year" := PInt 2021]> (prefixed "TSLA" second_metrics) ∧
  size (combine 2021 (prefixed "TSLA" first_metrics)
          (prefixed "TSLA" second_metrics)) = 11%nat ∧
  ∀ key,
    combine 2021 (prefixed "TSLA" first_metrics)
      (prefixed "TSLA" second_metrics)
    !! prefix_key "TSLA" key = PNum <$> second_metrics !! key.
Proof.
  assert (H1 : dom first_metrics = list_to_set metric_names)
    by (unfold first_metrics; rewrite dom_list_to_map_L; reflexivity).
  assert (H2 : dom second_metrics = list_to_set metric_names)
    by (unfold second_metrics; rewrite dom_list_to_map_L; reflexivity).
  exact (proj1 (same_ticker_row "TSLA") 2021 first_metrics second_metrics H1 H2).
Defined.

(** The overwritten entry on the sample dicts: the first computation's
    value 1 is gone, the second's value 2 is there. *)
Example same_ticker_row_value :
  first_metrics !! "ROE" = Some (Some 1%float) ∧
  combine 2021 (prefixed "TSLA" first_metrics) (prefixed "TSLA" second_metrics)
  !! "TSLA_ROE" = Some (PNum (Some 2%float)).
Proof. split; vm_compute; reflexivity. Qed.

(** * Further properties of the code *)

(** ** Guarded division *)

(** On floats the function on Python's numbers is the function used by
    [get_annual_metrics]. *)
Lemma safe_divide_of_scalar (x y : scalar) :
  PyNum.safe_divide (PyNum.of_scalar x) (PyNum.of_scalar y)
  = Ok (PyNum.of_scalar (ratio x y)).
Proof.
  unfold PyNum.safe_divide, PyNum.py_truediv, PyNum.float_true_divide, ratio.
  destruct x as [a|], y as [b|]; cbn; try reflexivity.
  destruct (b =? 0)%float; reflexivity.
Qed.

(** X1: [safe_divide] gives [None] whenever the numerator is [None] or the
    denominator is falsy ([None] or a zero, [int] or float).  On [None] and
    floats these are the only cases that give [None], every other result
    is a float, and nothing is raised.  With an [int] among the operands
    the only exception that can escape is [OverflowError]. *)
Theorem safe_divide_outcomes :
  (∀ x y, x = None ∨ PyNum.truthy y = false →
          PyNum.safe_divide x y = Ok None) ∧
  (∀ x y : scalar,
     (PyNum.safe_divide (PyNum.of_scalar x) (PyNum.of_scalar y) = Ok None ↔
      x = None ∨ truthy y = false) ∧
     ∃ q : scalar,
       PyNum.safe_divide (PyNum.of_scalar x) (PyNum.of_scalar y)
       = Ok (PyNum.of_scalar q)) ∧
  (∀ x y e,
     PyNum.safe_divide x y = Raise e →
     e = OverflowError ∧
     ∃ n, x = Some (PyNum.PyInt n) ∨ y = Some (PyNum.PyInt n)).
Proof.
  split; [|split].
  - intros x y [->|Hy]; [reflexivity|].
    unfold PyNum.safe_divide. rewrite Hy, andb_false_r. reflexivity.
  - intros x y. rewrite safe_divide_of_scalar. split; [|eauto].
    unfold ratio, truthy.
    destruct x as [a|], y as [b|]; [destruct (b =? 0)%float|..]; cbn;
      split; auto; intros H; try discriminate H; destruct H; discriminate.
  - intros x y e. unfold PyNum.safe_divide.
    destruct x as [[a|a]|], y as [[b|b]|]; cbn [PyNum.is_not_None andb];
      try discriminate;
      (destruct (PyNum.truthy _) eqn:Hy; [|discriminate]);
      cbn [PyNum.py_truediv].
    + unfold PyNum.int_true_divide.
      repeat (case_match; cbn [rbind except_ZeroDivisionError]);
        intros [= <-] || discriminate; eauto.
    + unfold PyNum.float_of_int, PyNum.float_true_divide.
      repeat (case_match; cbn [rbind except_ZeroDivisionError]);
        intros [= <-] || discriminate; eauto.
    + unfold PyNum.float_of_int, PyNum.float_true_divide.
      repeat (case_match; cbn [rbind except_ZeroDivisionError]);
        intros [= <-] || discriminate; eauto.
    + unfold PyNum.float_true_divide.
      repeat (case_match; cbn [rbind except_ZeroDivisionError]);
        discriminate.
Qed.

(** ** Outcome and messages of [get_annual_metrics] *)

(** X2: a returned dict comes with no message and a non-empty price
    history; [None] comes with exactly one warning: the "no data" warning
    when the price history is empty (the statements are then not read), or
    the "error" warning carrying the exception raised while computing. *)
Theorem get_annual_metrics_outcome yf ticker year :
  match fst (get_annual_metrics yf ticker year) with
  | Some metrics =>
      history (yf ticker) (fstr year +:+ "-01-01") (fstr year +:+ "-12-31")
      ≠ [] ∧
      snd (get_annual_metrics yf ticker year) = []
  | None =>
      (history (yf ticker) (fstr year +:+ "-01-01") (fstr year +:+ "-12-31")
       = [] ∧
       snd (get_annual_metrics yf ticker year) = [NoDataFound ticker year]) ∨
      (∃ e,
         compute_metrics (yf ticker)
           (history (yf ticker) (fstr year +:+ "-01-01")
              (fstr year +:+ "-12-31")) year = Raise e ∧
         snd (get_annual_metrics yf ticker year) = [ErrorCalculating year e])
  end.
Proof.
  unfold get_annual_metrics. cbv zeta.
  destruct (history _ _ _) as [|x data] eqn:Hdata; cbn [fst snd ui_bind st_warning ui_ret app].
  - left. done.
  - destruct (compute_metrics _ _ _) as [m|e];
      cbn [fst snd ui_bind st_warning ui_ret app].
    + done.
    + right. eauto.
Qed.

Lemma get_annual_metrics_warnings yf ticker year :
  Forall (λ ev, is_warning ev = true) (snd (get_annual_metrics yf ticker year)).
Proof.
  unfold get_annual_metrics. cbv zeta.
  destruct (history _ _ _) as [|x data];
    cbn [snd ui_bind st_warning ui_ret app]; [by repeat constructor|].
  destruct (compute_metrics _ _ _) as [m|e];
    cbn [snd ui_bind st_warning ui_ret app]; by repeat constructor.
Qed.

(** X3: a line item that cannot be read although the column of the year is
    there (the row is missing: [loc] raises) aborts the whole year: no dict
    is returned. *)
Theorem missing_row_aborts yf ticker year row e :
  (row ∈ income_items ∧
   has_column (financials (yf ticker)) (fstr year) = true ∧
   loc (financials (yf ticker)) row (fstr year) = Raise e) ∨
  (row ∈ balance_items ∧
   has_column (balance_sheet (yf ticker)) (fstr year) = true ∧
   loc (balance_sheet (yf ticker)) row (fstr year) = Raise e) →
  available yf ticker year = false.
Proof.
  intros H. destruct (available yf ticker year) eqn:Ha; [|done].
  apply available_Some in Ha as [metrics Hm].
  apply get_annual_metrics_inv in Hm
    as (stock_data & [ni eq ta gp rev tl eb price prev
                        H1 H2 H3 H4 H5 H6 H7 _ _ _]).
  unfold fetch in *.
  destruct H as [(Hrow & Hcol & Hloc)|(Hrow & Hcol & Hloc)];
    rewrite Hcol in *; unfold income_items, balance_items in Hrow;
    repeat (apply elem_of_cons in Hrow as [->|Hrow]);
    try (by apply elem_of_nil in Hrow);
    rewrite Hloc in *; discriminate.
Qed.

Lemma missing_row_aborts_witness : available second_provider "NOEB" 2022 = false.
Proof.
  apply (missing_row_aborts second_provider "NOEB" 2022 "EBITDA"
           (KeyError "EBITDA")).
  left. split; [|split].
  - unfold income_items. do 3 apply list_elem_of_further. apply list_elem_of_here.
  - vm_compute. reflexivity.
  - vm_compute. reflexivity.
Defined.

(** X4: when the income statement has no column for the year itself,
    [revenue] is [None], the subtraction raises and no dict is returned. *)
Theorem missing_income_column_aborts yf ticker year :
  has_column (financials (yf ticker)) (fstr year) = false →
  available yf ticker year = false.
Proof.
  intros Hcol. destruct (available yf ticker year) eqn:Ha; [|done].
  apply available_Some in Ha as [metrics Hm].
  apply get_annual_metrics_inv in Hm
    as (stock_data & [ni eq ta gp rev tl eb price prev _ _ _ _ H _ _ _ _ _]).
  rewrite fetch_missing_column in H by done. discriminate.
Qed.

Lemma missing_income_column_aborts_witness :
  available second_provider "OLD" 2022 = false.
Proof.
  apply (missing_income_column_aborts second_provider "OLD" 2022).
  vm_compute. reflexivity.
Defined.

(** ** The ten formulas *)

Lemma get_annual_metrics_items yf ticker year
    (ni eq ta gp tl eb : scalar) (rev prev price : float) :
  last (history (yf ticker) (fstr year +:+ "-01-01") (fstr year +:+ "-12-31"))
  = Some price →
  fetch (financials (yf ticker)) "Net Income" (fstr year) = Ok ni →
  fetch (balance_sheet (yf ticker)) "Total Equity Gross Minority Interest"
        (fstr year) = Ok eq →
  fetch (balance_sheet (yf ticker)) "Total Assets" (fstr year) = Ok ta →
  fetch (financials (yf ticker)) "Gross Profit" (fstr year) = Ok gp →
  fetch (financials (yf ticker)) "Total Revenue" (fstr year) = Ok (Some rev) →
  fetch (balance_sheet (yf ticker)) "Total Liabilities Net Minority Interest"
        (fstr year) = Ok tl →
  fetch (financials (yf ticker)) "EBITDA" (fstr year) = Ok eb →
  fetch (financials (yf ticker)) "Total Revenue" (fstr (year - 1))
  = Ok (Some prev) →
  fst (get_annual_metrics yf ticker year)
  = Some (metrics_dict (info (yf ticker)) ni eq ta gp (Some rev) tl eb
            (Some price) (Some prev) (Some (rev - prev)%float)).
Proof.
  intros Hprice ? ? ? ? ? ? ? ?.
  apply get_annual_metrics_Some. split.
  - intros Hnil. rewrite Hnil in Hprice. discriminate.
  - apply compute_metrics_Ok. by eapply ItemsRead.
Qed.

(** X5: when every line item can be read and revenue of the year and of
    the year before are numbers, a dict is returned and each metric is the
    guarded quotient of the source: ROE, ROA, margin, debt-to-equity from
    the statements, P/E and earnings yield from the last close of the year
    and the trailing EPS of [info], P/EBITDA from the market
    capitalisation, EV/EBITDA copied from [info], and revenue growth from
    the two revenues. *)
Theorem metric_formulas yf ticker year
    (ni eq ta gp tl eb : scalar) (rev prev price : float) :
  last (history (yf ticker) (fstr year +:+ "-01-01") (fstr year +:+ "-12-31"))
  = Some price →
  fetch (financials (yf ticker)) "Net Income" (fstr year) = Ok ni →
  fetch (balance_sheet (yf ticker)) "Total Equity Gross Minority Interest"
        (fstr year) = Ok eq →
  fetch (balance_sheet (yf ticker)) "Total Assets" (fstr year) = Ok ta →
  fetch (financials (yf ticker)) "Gross Profit" (fstr year) = Ok gp →
  fetch (financials (yf ticker)) "Total Revenue" (fstr year) = Ok (Some rev) →
  fetch (balance_sheet (yf ticker)) "Total Liabilities Net Minority Interest"
        (fstr year) = Ok tl →
  fetch (financials (yf ticker)) "EBITDA" (fstr year) = Ok eb →
  fetch (financials (yf ticker)) "Total Revenue" (fstr (year - 1))
  = Ok (Some prev) →
  available yf ticker year = true ∧
  metric yf ticker year "ROE" = Some (ratio ni eq) ∧
  metric yf ticker year "ROA" = Some (ratio ni ta) ∧
  metric yf ticker year "Gross Profit Margin" = Some (ratio gp (Some rev)) ∧
  metric yf ticker year "Debt-to-Equity" = Some (ratio tl eq) ∧
  metric yf ticker year "P/E Ratio"
  = Some (ratio (Some price) (dict_get (info (yf ticker)) "trailingEps")) ∧
  metric yf ticker year "EV/EBITDA"
  = Some (dict_get (info (yf ticker)) "enterpriseToEbitda") ∧
  metric yf ticker year "P/EBITDA"
  = Some (ratio (dict_get (info (yf ticker)) "marketCap") eb) ∧
  metric yf ticker year "Earnings Yield"
  = Some (ratio (dict_get (info (yf ticker)) "trailingEps") (Some price)) ∧
  metric yf ticker year "Revenue Growth"
  = Some (ratio (Some (rev - prev)%float) (Some prev)).
Proof.
  intros Hprice H1 H2 H3 H4 H5 H6 H7 H8.
  pose proof (get_annual_metrics_items _ _ _ _ _ _ _ _ _ _ _ _
                Hprice H1 H2 H3 H4 H5 H6 H7 H8) as Hm.
  split; [apply available_Some; eauto|].
  rewrite !(metric_Some _ _ _ _ _ Hm).
  repeat split; by lookup_metric.
Qed.

Lemma metric_formulas_witness :
  available sample_provider "FULL" 2022 = true ∧
  metric sample_provider "FULL" 2022 "ROE"
  = Some (ratio (Some 24%float) (Some 100%float)) ∧
  metric sample_provider "FULL" 2022 "Revenue Growth"
  = Some (ratio (Some (160 - 125)%float) (Some 125%float)).
Proof.
  destruct (metric_formulas sample_provider "FULL" 2022
              (Some 24%float) (Some 100%float) (Some 400%float)
              (Some 70%float) (Some 300%float) (Some 40%float) 160 125 100)
    as (Ha & Hroe & _ & _ & _ & _ & _ & _ & _ & Hgrowth);
    try (vm_compute; reflexivity).
  split; [exact Ha|]. split; [exact Hroe | exact Hgrowth].
Defined.

(** X6: with complete statements, all statistics present in [info] and no
    zero among the denominators (equity, assets, revenue, EBITDA, EPS, last
    close, previous revenue, and the growth rate when the PEG ratio has to
    be computed), all ten metrics are numbers. *)
Theorem complete_data_all_numeric yf ticker year
    (ni eq ta gp tl eb rev prev price eps cap ev : float) :
  last (history (yf ticker) (fstr year +:+ "-01-01") (fstr year +:+ "-12-31"))
  = Some price →
  fetch (financials (yf ticker)) "Net Income" (fstr year) = Ok (Some ni) →
  fetch (balance_sheet (yf ticker)) "Total Equity Gross Minority Interest"
        (fstr year) = Ok (Some eq) →
  fetch (balance_sheet (yf ticker)) "Total Assets" (fstr year)
  = Ok (Some ta) →
  fetch (financials (yf ticker)) "Gross Profit" (fstr year) = Ok (Some gp) →
  fetch (financials (yf ticker)) "Total Revenue" (fstr year) = Ok (Some rev) →
  fetch (balance_sheet (yf ticker)) "Total Liabilities Net Minority Interest"
        (fstr year) = Ok (Some tl) →
  fetch (financials (yf ticker)) "EBITDA" (fstr year) = Ok (Some eb) →
  fetch (financials (yf ticker)) "Total Revenue" (fstr (year - 1))
  = Ok (Some prev) →
  dict_get (info (yf ticker)) "trailingEps" = Some eps →
  dict_get (info (yf ticker)) "marketCap" = Some cap →
  dict_get (info (yf ticker)) "enterpriseToEbitda" = Some ev →
  (eq =? 0)%float = false → (ta =? 0)%float = false →
  (rev =? 0)%float = false → (eb =? 0)%float = false →
  (eps =? 0)%float = false → (price =? 0)%float = false →
  (prev =? 0)%float = false →
  (dict_get (info (yf ticker)) "pegRatio" = None →
   ((rev - prev) / prev / 100 =? 0)%float = false) →
  Forall (λ key, ∃ x : float, metric yf ticker year key = Some (Some x))
    metric_names.
Proof.
  intros Hprice H1 H2 H3 H4 H5 H6 H7 H8 Heps Hcap Hev
    Zeq Zta Zrev Zeb Zeps Zprice Zprev Zrate.
  apply Forall_forall. intros key Hkey.
  pose proof (get_annual_metrics_items _ _ _ _ _ _ _ _ _ _ _ _
                Hprice H1 H2 H3 H4 H5 H6 H7 H8) as Hm.
  rewrite (metric_Some _ _ _ _ _ Hm).
  unfold metric_names in Hkey.
  repeat (apply elem_of_cons in Hkey as [->|Hkey]);
    try (by apply elem_of_nil in Hkey);
    lookup_metric; rewrite ?Heps, ?Hcap, ?Hev;
    try (unfold ratio;
         rewrite ?Zeq, ?Zta, ?Zrev, ?Zeb, ?Zeps, ?Zprice, ?Zprev; by eauto).
  destruct (dict_get (info (yf ticker)) "pegRatio") as [peg|]; [by eauto|].
  unfold ratio. rewrite Zeps, Zprev.
  change (100 =? 0)%float with false. cbv iota.
  rewrite Zrate by done. eauto.
Qed.

Lemma complete_data_all_numeric_witness :
  Forall (λ key,
            ∃ x : float, metric sample_provider "FULL" 2022 key = Some (Some x))
    metric_names.
Proof.
  apply (complete_data_all_numeric sample_provider "FULL" 2022
           24 100 400 70 300 40 160 125 100 4 1000 12.5);
    vm_compute; reflexivity.
Defined.

(** X7: a previous revenue of zero makes Revenue Growth unavailable, and
    with it the PEG ratio when [info] supplies none. *)
Theorem zero_previous_revenue yf ticker year (prev : float) :
  available yf ticker year = true →
  fetch (financials (yf ticker)) "Total Revenue" (fstr (year - 1))
  = Ok (Some prev) →
  (prev =? 0)%float = true →
  metric yf ticker year "Revenue Growth" = Some None ∧
  (dict_get (info (yf ticker)) "pegRatio" = None →
   metric yf ticker year "PEG Ratio" = Some None).
Proof.
  intros [metrics Hm]%available_Some Hprev Hzero.
  rewrite !(metric_Some _ _ _ _ _ Hm).
  apply get_annual_metrics_inv in Hm
    as (stock_data & [ni eq ta gp rev tl eb price prev' _ _ _ _ _ _ _ _ H ->]).
  rewrite Hprev in H. injection H as <-.
  assert (Hgrowth : ratio (Some (rev - prev)%float) (Some prev) = None)
    by (unfold ratio; by rewrite Hzero).
  split.
  - lookup_metric. by rewrite Hgrowth.
  - intros Hpeg. lookup_metric. rewrite Hpeg, Hgrowth.
    by destruct (ratio (Some price) _).
Qed.

Lemma zero_previous_revenue_witness :
  metric second_provider "ZERO" 2022 "Revenue Growth" = Some None ∧
  (dict_get (info (second_provider "ZERO")) "pegRatio" = None →
   metric second_provider "ZERO" 2022 "PEG Ratio" = Some None).
Proof.
  apply (zero_previous_revenue second_provider "ZERO" 2022 0);
    vm_compute; reflexivity.
Defined.

(** X8: when the PEG ratio has to be computed, it is unavailable as soon
    as Revenue Growth or the P/E ratio is. *)
Theorem peg_fallback_unavailable yf ticker year :
  available yf ticker year = true →
  dict_get (info (yf ticker)) "pegRatio" = None →
  metric yf ticker year "Revenue Growth" = Some None ∨
  metric yf ticker year "P/E Ratio" = Some None →
  metric yf ticker year "PEG Ratio" = Some None.
Proof.
  intros [metrics Hm]%available_Some Hpeg.
  rewrite !(metric_Some _ _ _ _ _ Hm).
  apply get_annual_metrics_inv in Hm
    as (stock_data & [ni eq ta gp rev tl eb price prev _ _ _ _ _ _ _ _ _ ->]).
  intros [H|H]; revert H; lookup_metric; intros H; apply (inj Some) in H;
    lookup_metric; rewrite Hpeg, H;
    first [done | by destruct (ratio (Some price) _)].
Qed.

Lemma peg_fallback_unavailable_witness :
  metric second_provider "ZERO" 2022 "PEG Ratio" = Some None.
Proof.
  apply (peg_fallback_unavailable second_provider "ZERO" 2022);
    [vm_compute; reflexivity | vm_compute; reflexivity |].
  left. vm_compute. reflexivity.
Defined.

(** X9: the statistics of [info] are not tied to the year: EV/EBITDA, and
    the PEG ratio when [info] supplies one, are the same in every year for
    which the ticker has metrics. *)
Theorem statistics_same_every_year yf ticker year1 year2 :
  available yf ticker year1 = true →
  available yf ticker year2 = true →
  metric yf ticker year1 "EV/EBITDA" = metric yf ticker year2 "EV/EBITDA" ∧
  (is_Some (dict_get (info (yf ticker)) "pegRatio") →
   metric yf ticker year1 "PEG Ratio" = metric yf ticker year2 "PEG Ratio").
Proof.
  intros [m1 Hm1]%available_Some [m2 Hm2]%available_Some.
  rewrite !(metric_Some _ _ _ _ _ Hm1), !(metric_Some _ _ _ _ _ Hm2).
  apply get_annual_metrics_inv in Hm1
    as (? & [? ? ? ? ? ? ? ? ? _ _ _ _ _ _ _ _ _ ->]).
  apply get_annual_metrics_inv in Hm2
    as (? & [? ? ? ? ? ? ? ? ? _ _ _ _ _ _ _ _ _ ->]).
  split.
  - by do 2 lookup_metric.
  - intros [peg Hpeg]. do 2 lookup_metric. by rewrite Hpeg.
Qed.

Lemma statistics_same_every_year_witness :
  metric sample_provider "GAP" 2021 "EV/EBITDA"
  = metric sample_provider "GAP" 2023 "EV/EBITDA" ∧
  (is_Some (dict_get (info (sample_provider "GAP")) "pegRatio") →
   metric sample_provider "GAP" 2021 "PEG Ratio"
   = metric sample_provider "GAP" 2023 "PEG Ratio").
Proof.
  apply (statistics_same_every_year sample_provider "GAP" 2021 2023);
    vm_compute; reflexivity.
Defined.

(** ** Messages and size of the comparison *)

Lemma compare_loop_log yf ticker1 ticker2 years yearly_data :
  snd (compare_loop yf ticker1 ticker2 years yearly_data)
  = concat (year_log yf ticker1 ticker2 <$> years).
Proof.
  revert yearly_data.
  induction years as [|year years IH]; intros yearly_data;
    cbn [compare_loop fmap list_fmap concat]; [done|].
  rewrite !snd_ui_bind. unfold year_log.
  cbn [snd st_write app]. rewrite <- !app_assoc. do 3 f_equal.
  destruct (fst (get_annual_metrics yf ticker1 year)) as [d1|];
    [|apply IH].
  destruct (fst (get_annual_metrics yf ticker2 year)) as [d2|];
    [|apply IH].
  destruct (dict_truthy d1 && dict_truthy d2); apply IH.
Qed.

Lemma compare_stocks_over_range_log yf ticker1 ticker2 start_year end_year :
  snd (compare_stocks_over_range yf ticker1 ticker2 start_year end_year)
  = concat (year_log yf ticker1 ticker2 <$> range start_year (end_year + 1))
    ++ match omap (comparison_row yf ticker1 ticker2)
               (range start_year (end_year + 1)) with
       | [] => [NoDataAvailable ticker1 ticker2]
       | _ :: _ => []
       end.
Proof.
  unfold compare_stocks_over_range.
  rewrite snd_ui_bind, compare_loop_log, compare_loop_rows, app_nil_l.
  by destruct (omap _ _).
Qed.

(** X10: in every year of the range, in order, the progress message is
    written and both computations are run, the second one also when the
    first has failed; the warnings of each follow the progress message, and
    the "no data available" warning closes the log when no row was made. *)
Theorem compare_log yf ticker1 ticker2 start_year end_year :
  snd (compare_stocks_over_range yf ticker1 ticker2 start_year end_year)
  = concat (year_log yf ticker1 ticker2 <$> range start_year (end_year + 1))
    ++ match fst (compare_stocks_over_range yf ticker1 ticker2
                    start_year end_year) with
       | Some _ => []
       | None => [NoDataAvailable ticker1 ticker2]
       end.
Proof.
  rewrite compare_stocks_over_range_log, compare_stocks_over_range_rows.
  by destruct (omap _ _).
Qed.

Lemma year_log_progress yf ticker1 ticker2 years :
  length (filter (λ ev, is_warning ev = false)
            (concat (year_log yf ticker1 ticker2 <$> years)))
  = length years.
Proof.
  assert (Hw : ∀ ticker year,
            filter (λ ev, is_warning ev = false)
              (snd (get_annual_metrics yf ticker year)) = []).
  { intros ticker year.
    pose proof (get_annual_metrics_warnings yf ticker year) as H.
    induction H as [|ev log Hev _ IH]; [done|].
    rewrite filter_cons_False by congruence. exact IH. }
  induction years as [|year years IH]; [done|].
  cbn [fmap list_fmap concat]. unfold year_log at 1.
  rewrite filter_app, filter_cons_True by done.
  rewrite filter_app, !Hw. cbn [app length]. by rewrite IH.
Qed.

(** X11: the number of progress messages is the number of years of the
    range, whatever data the years have. *)
Theorem progress_message_count yf ticker1 ticker2 start_year end_year :
  length (filter (λ ev, is_warning ev = false)
            (snd (compare_stocks_over_range yf ticker1 ticker2
                    start_year end_year)))
  = Z.to_nat (end_year + 1 - start_year).
Proof.
  rewrite compare_stocks_over_range_log, filter_app, length_app.
  rewrite year_log_progress. unfold range at 1. rewrite length_seqZ.
  destruct (omap _ _); [rewrite filter_cons_False by done|];
    rewrite filter_nil; cbn [length]; lia.
Qed.

(** X12: with the end year before the start year the range is empty:
    nothing is fetched, and the result is [None] with the single
    "no data available" warning. *)
Theorem empty_range yf ticker1 ticker2 start_year end_year :
  end_year < start_year →
  compare_stocks_over_range yf ticker1 ticker2 start_year end_year
  = (None, [NoDataAvailable ticker1 ticker2]).
Proof.
  intros H. unfold compare_stocks_over_range, range.
  rewrite seqZ_nil by lia. reflexivity.
Qed.

Lemma empty_range_witness :
  compare_stocks_over_range sample_provider "FULL" "GAP" 2023 2021
  = (None, [NoDataAvailable "FULL" "GAP"]).
Proof. apply (empty_range sample_provider "FULL" "GAP" 2023 2021). lia. Defined.

Lemma table_rows yf ticker1 ticker2 start_year end_year :
  default [] (fst (compare_stocks_over_range yf ticker1 ticker2
                     start_year end_year))
  = omap (comparison_row yf ticker1 ticker2) (range start_year (end_year + 1)).
Proof. rewrite compare_stocks_over_range_rows. by destruct (omap _ _). Qed.

(** X13: the table has at most one row per year of the range; no two rows
    have the same year, and the year of every row lies between the start
    and the end year and is one for which both tickers have metrics. *)
Theorem table_bounds yf ticker1 ticker2 start_year end_year :
  (length (default [] (fst (compare_stocks_over_range yf ticker1 ticker2
                              start_year end_year)))
   ≤ Z.to_nat (end_year + 1 - start_year))%nat ∧
  NoDup (table_years
           (default [] (fst (compare_stocks_over_range yf ticker1 ticker2
                               start_year end_year)))) ∧
  ∀ row,
    row ∈ default [] (fst (compare_stocks_over_range yf ticker1 ticker2
                             start_year end_year)) →
    ∃ year, row !! "Year" = Some (PInt year) ∧
            start_year ≤ year ≤ end_year ∧
            both_available yf ticker1 ticker2 year = true.
Proof.
  rewrite table_rows. split; [|split].
  - rewrite <- (length_fmap (λ row, row !! "Year")).
    fold (table_years (omap (comparison_row yf ticker1 ticker2)
                         (range start_year (end_year + 1)))).
    rewrite table_years_rows, length_fmap.
    etrans; [apply length_filter|]. unfold range. by rewrite length_seqZ.
  - rewrite table_years_rows. apply NoDup_fmap_2.
    + intros y1 y2 H. by simplify_eq.
    + apply NoDup_filter, NoDup_seqZ.
  - intros row (year & Hyear & Hrow)%list_elem_of_omap. exists year.
    unfold range in Hyear. apply elem_of_seqZ in Hyear.
    split; [|split; [lia|]].
    + unfold comparison_row in Hrow.
      destruct (fst (get_annual_metrics yf ticker1 year)); [|done].
      destruct (fst (get_annual_metrics yf ticker2 year)); [|done].
      injection Hrow as <-. apply combine_Year.
    + apply both_available_row. eauto.
Qed.

(** ** Columns of the table *)

Lemma has_underscore_prefix s key :
  has_underscore (s +:+ "_" +:+ key) = true.
Proof.
  induction s as [|c s IH].
  - reflexivity.
  - change (has_underscore (String c (s +:+ "_" +:+ key)) = true).
    cbn [has_underscore]. rewrite IH. apply orb_true_r.
Qed.

Lemma append_eq_cases (s1 s2 a b : string) :
  s1 +:+ a = s2 +:+ b →
  (∃ s, s2 = s1 +:+ s ∧ a = s +:+ b) ∨ (∃ s, s1 = s2 +:+ s ∧ b = s +:+ a).
Proof.
  revert s2. induction s1 as [|c s1 IH]; intros s2 H.
  - left. exists s2. split; [reflexivity | exact H].
  - destruct s2 as [|c2 s2].
    + right. exists (String c s1). split; [reflexivity | symmetry; exact H].
    + change (String c (s1 +:+ a) = String c2 (s2 +:+ b)) in H.
      injection H as -> H.
      destruct (IH _ H) as [(s & -> & ->)|(s & -> & ->)];
        [left | right]; exists s; split; reflexivity.
Qed.

Lemma append_nil_r (s : string) : s +:+ "" = s.
Proof.
  induction s as [|c s IH]; [reflexivity|].
  change (String c (s +:+ "") = String c s). by rewrite IH.
Qed.

Lemma append_cons c (s t : string) : String c s +:+ t = String c (s +:+ t).
Proof. reflexivity. Qed.

(** Two prefixed keys of different tickers can only meet when one of the
    keys contains an underscore. *)
Lemma prefix_key_collision ticker1 ticker2 key1 key2 :
  ticker1 ≠ ticker2 →
  prefix_key ticker1 key1 = prefix_key ticker2 key2 →
  has_underscore key1 = true ∨ has_underscore key2 = true.
Proof.
  unfold prefix_key. intros Hne H.
  apply append_eq_cases in H as [(s & -> & H)|(s & -> & H)].
  - destruct s as [|c s]; [by rewrite append_nil_r in Hne|].
    rewrite !append_cons in H. injection H as _ H.
    change (key1 = s +:+ "_" +:+ key2) in H. subst key1.
    left. apply has_underscore_prefix.
  - destruct s as [|c s]; [by rewrite append_nil_r in Hne|].
    rewrite !append_cons in H. injection H as _ H.
    change (key2 = s +:+ "_" +:+ key1) in H. subst key2.
    right. apply has_underscore_prefix.
Qed.

Lemma metric_names_no_underscore key :
  key ∈ metric_names → has_underscore key = false.
Proof.
  unfold metric_names. intros H.
  repeat (apply elem_of_cons in H as [->|H]; [reflexivity|]).
  by apply elem_of_nil in H.
Qed.

Lemma prefixed_other_ticker ticker1 ticker2 (d2 : gmap string scalar) key :
  ticker1 ≠ ticker2 →
  dom d2 = list_to_set metric_names →
  has_underscore key = false →
  prefixed ticker2 d2 !! prefix_key ticker1 key = None.
Proof.
  intros Hne Hdom Hkey. unfold prefixed.
  apply lookup_kmap_None; [apply _|]. intros key2 H.
  apply prefix_key_collision in H as [H|H]; [congruence | | done].
  rewrite lookup_fmap. apply fmap_None, not_elem_of_dom.
  rewrite Hdom, elem_of_list_to_set. intros Hin.
  apply metric_names_no_underscore in Hin. congruence.
Qed.

Lemma prefixed_dom_names ticker (d : gmap string scalar) key v :
  dom d = list_to_set metric_names →
  prefixed ticker d !! key = Some v →
  ∃ name, key = prefix_key ticker name ∧ name ∈ metric_names.
Proof.
  intros Hdom H. unfold prefixed in H.
  apply lookup_kmap_Some in H as (name & -> & H); [|apply _].
  exists name. split; [done|].
  rewrite lookup_fmap in H. apply fmap_Some in H as (x & H & _).
  apply elem_of_dom_2 in H. by rewrite Hdom, elem_of_list_to_set in H.
Qed.

(** X14: for two different tickers no two keys of a row coincide, whatever
    the ticker texts are (no metric name contains an underscore): the row
    has 21 entries, the year and ten metrics under each ticker's prefix,
    each holding that ticker's value. *)
Theorem distinct_tickers_row ticker1 ticker2 year (d1 d2 : gmap string scalar) :
  ticker1 ≠ ticker2 →
  dom d1 = list_to_set metric_names →
  dom d2 = list_to_set metric_names →
  size (combine year (prefixed ticker1 d1) (prefixed ticker2 d2)) = 21%nat ∧
  ∀ key, key ∈ metric_names →
    combine year (prefixed ticker1 d1) (prefixed ticker2 d2)
    !! prefix_key ticker1 key = PNum <$> d1 !! key ∧
    combine year (prefixed ticker1 d1) (prefixed ticker2 d2)
    !! prefix_key ticker2 key = PNum <$> d2 !! key.
Proof.
  intros Hne Hdom1 Hdom2. unfold combine. split.
  - assert (Hsize : ∀ ticker (d : gmap string scalar),
              dom d = list_to_set metric_names →
              size (prefixed ticker d) = 10%nat).
    { intros ticker d Hdom. rewrite prefixed_size, <- size_dom, Hdom.
      rewrite size_list_to_set by apply metric_names_NoDup. reflexivity. }
    rewrite map_size_disj_union.
    + rewrite map_size_disj_union.
      * rewrite !Hsize, map_size_singleton by done. reflexivity.
      * apply map_disjoint_singleton_r, prefixed_Year.
    + apply map_disjoint_spec. intros key v w H2 H1.
      apply prefixed_dom_names in H2 as (name & -> & Hname); [|done].
      apply lookup_union_Some_raw in H1 as [H1|[_ H1]].
      * apply prefixed_dom_names in H1 as (name1 & H1 & Hname1); [|done].
        apply prefix_key_collision in H1 as [H1|H1]; [| |congruence];
          [apply metric_names_no_underscore in Hname
          |apply metric_names_no_underscore in Hname1]; congruence.
      * apply lookup_singleton_Some in H1 as [H1 _].
        by apply symmetry, prefix_key_not_Year in H1.
  - intros key Hkey. split.
    + rewrite lookup_union_r
        by (apply prefixed_other_ticker;
            auto using metric_names_no_underscore).
      rewrite lookup_union_l
        by (apply lookup_singleton_ne, not_eq_sym, prefix_key_not_Year).
      apply prefixed_lookup.
    + assert (Hin : key ∈ dom d2)
        by (by rewrite Hdom2, elem_of_list_to_set).
      apply elem_of_dom in Hin as [v Hv]. rewrite Hv.
      apply lookup_union_Some_l. by rewrite prefixed_lookup, Hv.
Qed.

Lemma distinct_tickers_row_witness :
  size (combine 2021 (prefixed "TSLA" first_metrics)
          (prefixed "MSFT" second_metrics)) = 21%nat ∧
  ∀ key, key ∈ metric_names →
    combine 2021 (prefixed "TSLA" first_metrics)
      (prefixed "MSFT" second_metrics)
    !! prefix_key "TSLA" key = PNum <$> first_metrics !! key ∧
    combine 2021 (prefixed "TSLA" first_metrics)
      (prefixed "MSFT" second_metrics)
    !! prefix_key "MSFT" key = PNum <$> second_metrics !! key.
Proof.
  assert (Hne : "TSLA" ≠ "MSFT") by discriminate.
  assert (H1 : dom first_metrics = list_to_set metric_names)
    by (unfold first_metrics; rewrite dom_list_to_map_L; reflexivity).
  assert (H2 : dom second_metrics = list_to_set metric_names)
    by (unfold second_metrics; rewrite dom_list_to_map_L; reflexivity).
  exact (distinct_tickers_row "TSLA" "MSFT" 2021 first_metrics second_metrics
           Hne H1 H2).
Defined.

Lemma prefixed_dom ticker (d : gmap string scalar) (names : list string) :
  dom d = list_to_set names →
  dom (prefixed ticker d) =@{gset string} list_to_set (prefix_key ticker <$> names).
Proof.
  intros Hdom. unfold prefixed.
  rewrite dom_kmap_L by apply _. rewrite dom_fmap_L, Hdom.
  apply set_eq. intros key.
  rewrite elem_of_map, elem_of_list_to_set, list_elem_of_fmap.
  by setoid_rewrite elem_of_list_to_set.
Qed.

(** X15: every row of the table has the same keys: "Year" and the ten
    metric names under each ticker's prefix; a metric that is [None] still
    has its key. *)
Theorem table_columns yf ticker1 ticker2 start_year end_year :
  Forall
    (λ row : gmap string pyobj,
       dom row =@{gset string}
       {["Year"]} ∪ list_to_set (prefix_key ticker1 <$> metric_names)
                  ∪ list_to_set (prefix_key ticker2 <$> metric_names))
    (default [] (fst (compare_stocks_over_range yf ticker1 ticker2
                        start_year end_year))).
Proof.
  rewrite table_rows. apply Forall_forall.
  intros row (year & _ & Hrow)%list_elem_of_omap.
  unfold comparison_row in Hrow.
  destruct (fst (get_annual_metrics yf ticker1 year)) as [d1|] eqn:H1;
    [|done].
  destruct (fst (get_annual_metrics yf ticker2 year)) as [d2|] eqn:H2;
    [|done].
  injection Hrow as <-. unfold combine.
  rewrite !dom_union_L, dom_singleton_L.
  rewrite (prefixed_dom _ _ metric_names)
    by eauto using get_annual_metrics_dom.
  rewrite (prefixed_dom _ _ metric_names)
    by eauto using get_annual_metrics_dom.
  generalize (list_to_set (prefix_key ticker1 <$> metric_names) : gset string).
  generalize (list_to_set (prefix_key ticker2 <$> metric_names) : gset string).
  generalize ({["Year"]} : gset string).
  clear. intros year_column columns2 columns1.
  by rewrite (comm_L (∪) columns2), (comm_L (∪) columns1).
Qed.

(** ** The page *)

Lemma no_dataframe_in_messages (log : list ui_event) :
  existsb is_dataframe (Message <$> log) = false.
Proof. induction log as [|ev log IH]; [done|]. exact IH. Qed.

(** X16: without a click the page shows its title only.  After a click the
    chart is drawn in every case and is the last element of the page, with
    one line per ticker over the whole range; the table is shown exactly
    when some year of the range has metrics for both tickers, and otherwise
    the "no data available" warning is on the page. *)
Theorem page_contents upper yf text1 text2 start_year end_year :
  page upper yf text1 text2 start_year end_year false
  = [Title "Stock Comparison Tool"] ∧
  (∃ fig,
     last (page upper yf text1 text2 start_year end_year true)
     = Some (Pyplot fig) ∧
     label <$> fig_lines fig = [upper text1; upper text2] ∧
     ydata <$> fig_lines fig
     = [history (yf (upper text1)) (fstr start_year +:+ "-01-01")
          (fstr end_year +:+ "-12-31");
        history (yf (upper text2)) (fstr start_year +:+ "-01-01")
          (fstr end_year +:+ "-12-31")]) ∧
  (existsb is_dataframe (page upper yf text1 text2 start_year end_year true)
   = true ↔
   ∃ year, start_year ≤ year ≤ end_year ∧
           both_available yf (upper text1) (upper text2) year = true) ∧
  (existsb is_dataframe (page upper yf text1 text2 start_year end_year true)
   = false →
   Message (NoDataAvailable (upper text1) (upper text2))
   ∈ page upper yf text1 text2 start_year end_year true).
Proof.
  split; [reflexivity|]. unfold page. cbv zeta.
  set (run := compare_stocks_over_range yf (upper text1) (upper text2)
                start_year end_year).
  assert (Hshown :
    existsb is_dataframe
      (Title "Stock Comparison Tool"
       :: (Message <$> snd run)
          ++ match fst run with
             | Some comparison_table =>
                 [Subheader ("Comparison of " +:+ upper text1 +:+ " and "
                             +:+ upper text2 +:+ " from " +:+ fstr start_year
                             +:+ " to " +:+ fstr end_year);
                  Dataframe comparison_table]
             | None => []
             end
          ++ plot_stock_prices yf (upper text1) (upper text2)
               start_year end_year)
    = match fst run with Some _ => true | None => false end).
  { cbn [existsb is_dataframe orb].
    rewrite !existsb_app, no_dataframe_in_messages.
    by destruct (fst run). }
  split; [|split].
  - eexists. split.
    + unfold plot_stock_prices. cbv zeta.
      rewrite app_assoc, app_comm_cons.
      match goal with
      | |- last (?l ++ [?c; ?p]) = _ =>
          change (last (l ++ [c; p])) with (last (l ++ [c] ++ [p]))
      end.
      rewrite app_assoc. apply last_snoc.
    + split; reflexivity.
  - rewrite Hshown. subst run. rewrite compare_stocks_over_range_rows.
    split.
    + destruct (omap _ _) as [|row rows] eqn:Hrows; [done|]. intros _.
      assert (Hin : row ∈ omap (comparison_row yf (upper text1) (upper text2))
                      (range start_year (end_year + 1)))
        by (rewrite Hrows; apply list_elem_of_here).
      apply list_elem_of_omap in Hin as (year & Hyear & Hrow).
      exists year. unfold range in Hyear. apply elem_of_seqZ in Hyear.
      split; [lia|]. apply both_available_row. eauto.
    + intros (year & Hyear & [row Hrow]%both_available_row).
      assert (Hin : row ∈ omap (comparison_row yf (upper text1) (upper text2))
                      (range start_year (end_year + 1))).
      { apply list_elem_of_omap. exists year. split; [|done].
        unfold range. apply elem_of_seqZ. lia. }
      destruct (omap _ _); [by apply elem_of_nil in Hin | done].
  - rewrite Hshown. intros Hnone.
    apply list_elem_of_further, elem_of_app. left.
    apply list_elem_of_fmap. eexists. split; [reflexivity|].
    subst run. rewrite compare_stocks_over_range_rows in Hnone.
    rewrite compare_stocks_over_range_log.
    destruct (omap _ _); [|done].
    apply elem_of_app. right. apply list_elem_of_here.
Qed.
